(** * Int-BE: the realtime notification and session-correlation core

    A shallow embedding of the WebSocket connection manager
    (src/utils/websocket.ts), of the per-connection message handler and of the
    check-in, approval and completion handlers of the server entry file (its
    fully wired variant, the one that talks to the database), of the
    bearer-token middleware (src/middleware/auth.ts) and of the routes for
    pending interventions and for approvals, together with the properties the
    specification states about them and further ones the code shows.

    Conventions of the embedding:
    - a WebSocket object is a reference (a [nat]) into a heap of sockets, so
      that the registry and the handlers alias the same object;
    - the [studentId] variable that every connection handler closes over is
      kept per connection; [null] is "no entry";
    - a handler runs to completion; what it passes to [send] is appended to
      the socket's [sent] log in call order;
    - calls that can throw live in a small state-and-exception monad, and
      [try ... catch] is [try_catch]. *)

From stdpp Require Import base option list gmap strings numbers sorting pretty.
From Stdlib Require Import ZArith Lia.

Local Open Scope Z_scope.

(** ** Data model *)

(** [WebSocket.readyState]. *)
Inductive ReadyState := CONNECTING | OPEN | CLOSING | CLOSED.

#[global] Instance ReadyState_eq_dec : EqDecision ReadyState.
Proof. solve_decision. Defined.

(** The frames the server emits (the argument of [JSON.stringify]); fields
    that are fixed literals in the source are left out. *)
Inductive ServerMsg :=
| MsgError (message : string)
| MsgConnected (studentId : string) (simulationMode : bool)
| MsgCheckinOnTrack (logId : Z)
| MsgCheckinPending (interventionId logId : Z)
| MsgInterventionAssigned (interventionId : Z) (assignedTasks : string)
| MsgRemedialCompleted (interventionId : Z).

#[global] Instance ServerMsg_eq_dec : EqDecision ServerMsg.
Proof. solve_decision. Defined.

Record Socket := mkSocket {
  readyState : ReadyState;
  sent : list ServerMsg
}.

(** Rows of the tables of the init migration, under their column names. *)
Record DailyLog := mkDailyLog {
  log_id : Z;
  log_student_id : string;
  focus_minutes : Z;
  quiz_score : Z;
  status : string;
  timestamp : Z
}.

Record Intervention := mkIntervention {
  intervention_id : Z;
  student_id : string;
  task_assigned : bool;
  assigned_tasks : option string;
  completed : bool;
  created_at : Z;
  updated_at : Z
}.

#[global] Instance DailyLog_eq_dec : EqDecision DailyLog.
Proof. solve_decision. Defined.

#[global] Instance Intervention_eq_dec : EqDecision Intervention.
Proof. solve_decision. Defined.

(** The closure of the callback handed to [setTimeout] by
    [simulateN8nApproval], with the time it is due. *)
Record Timer := mkTimer {
  due : Z;
  t_studentId : string;
  t_interventionId : Z;
  t_quizScore : Z;
  t_focusMinutes : Z
}.

Record Db := mkDb {
  students : list string;
  dailyLogs : list DailyLog;
  interventions : list Intervention;
  logSeq : Z;
  interventionSeq : Z
}.

Record World := mkWorld {
  connections : gmap string nat;
  sockets : gmap nat Socket;
  sessionIds : gmap nat string;
  db : Db;
  faults : list bool;
  timers : list Timer;
  now : Z
}.

Definition set_connections (f : gmap string nat → gmap string nat) (w : World) : World :=
  mkWorld (f (connections w)) (sockets w) (sessionIds w) (db w) (faults w) (timers w) (now w).
Definition set_sockets (f : gmap nat Socket → gmap nat Socket) (w : World) : World :=
  mkWorld (connections w) (f (sockets w)) (sessionIds w) (db w) (faults w) (timers w) (now w).
Definition set_sessionIds (f : gmap nat string → gmap nat string) (w : World) : World :=
  mkWorld (connections w) (sockets w) (f (sessionIds w)) (db w) (faults w) (timers w) (now w).
Definition set_db (f : Db → Db) (w : World) : World :=
  mkWorld (connections w) (sockets w) (sessionIds w) (f (db w)) (faults w) (timers w) (now w).
Definition set_faults (f : list bool → list bool) (w : World) : World :=
  mkWorld (connections w) (sockets w) (sessionIds w) (db w) (f (faults w)) (timers w) (now w).
Definition set_now (f : Z → Z) (w : World) : World :=
  mkWorld (connections w) (sockets w) (sessionIds w) (db w) (faults w) (timers w) (f (now w)).
Definition set_timers (f : list Timer → list Timer) (w : World) : World :=
  mkWorld (connections w) (sockets w) (sessionIds w) (db w) (faults w) (f (timers w)) (now w).

(** ** The monad of handlers *)

Inductive Completion (A : Type) :=
| Normal (a : A)
| Thrown.
Arguments Normal {A} a.
Arguments Thrown {A}.

Definition M (A : Type) : Type := World → Completion A * World.

#[global] Instance M_ret : MRet M := λ A a w, (Normal a, w).

#[global] Instance M_bind : MBind M := λ A B k m w,
  match m w with
  | (Normal a, w') => k a w'
  | (Thrown, w') => (Thrown, w')
  end.

Definition throw {A} : M A := λ w, (Thrown, w).
Definition modify (f : World → World) : M unit := λ w, (Normal tt, f w).
Definition gets {A} (f : World → A) : M A := λ w, (Normal (f w), w).

Definition call {A} (f : World → A * World) : M A :=
  λ w, (Normal (f w).1, (f w).2).

(** [try { body } catch (error) { handler }], run for its effect. *)
Definition try_catch (body handler : M unit) : World → World :=
  λ w, match body w with
       | (Normal _, w') => w'
       | (Thrown, w') => snd (handler w')
       end.

(** ** Sockets *)

Definition add_sent (msg : ServerMsg) (s : Socket) : Socket :=
  mkSocket (readyState s) (sent s ++ [msg]).

(** [ws.send(JSON.stringify(msg))]. *)
Definition ws_send (ws : nat) (msg : ServerMsg) (w : World) : World :=
  set_sockets (alter (add_sent msg) ws) w.

(** [ws.close()]: an open socket starts its closing handshake. *)
Definition close_socket (s : Socket) : Socket :=
  mkSocket (match readyState s with CLOSED => CLOSED | _ => CLOSING end) (sent s).

Definition ws_close (ws : nat) (w : World) : World :=
  set_sockets (alter close_socket ws) w.

Definition ws_readyState (ws : nat) (w : World) : ReadyState :=
  match sockets w !! ws with
  | Some s => readyState s
  | None => CLOSED
  end.

Definition ws_sent (ws : nat) (w : World) : list ServerMsg :=
  match sockets w !! ws with
  | Some s => sent s
  | None => []
  end.

(** ** WebSocketManager (src/utils/websocket.ts) *)

(** What [jwt.verify(token, JWT_SECRET)] does with a token: it returns the
    decoded claims, of which only [studentId] is read, or throws. *)
Inductive JwtError := JwtMalformed | JwtExpired | JwtSignatureMismatch.

Inductive JwtOutcome :=
| Decoded (studentId : option string)
| JwtThrows (e : JwtError).

Module WebSocketManager.

Definition addConnection (studentId : string) (socket : nat) (w : World) : World :=
  set_connections (insert studentId socket) w.

Definition removeConnection (studentId : string) (w : World) : World :=
  set_connections (delete studentId) w.

Definition getConnection (studentId : string) (w : World) : option nat :=
  connections w !! studentId.

Definition sendToStudent (studentId : string) (message : ServerMsg) (w : World)
  : bool * World :=
  match connections w !! studentId with
  | Some socket =>
      if decide (ws_readyState socket w = OPEN)
      then (true, ws_send socket message w)
      else (false, w)
  | None => (false, w)
  end.

Definition isConnected (studentId : string) (w : World) : bool :=
  match connections w !! studentId with
  | Some socket => bool_decide (ws_readyState socket w = OPEN)
  | None => false
  end.

(** [verifyToken(token)]: [try { return jwt.verify(...).studentId } catch
    { return null }], for the [jwt.verify] of the jsonwebtoken library with the
    secret of the process; a missing token makes [jwt.verify] throw. *)
Definition verifyToken (jwt_verify : string → JwtOutcome) (token : option string)
    : option string :=
  match token with
  | Some token =>
      match jwt_verify token with
      | Decoded studentId => studentId
      | JwtThrows _ => None
      end
  | None => None
  end.

End WebSocketManager.

(** ** Persistence *)

(** src/utils/prisma, the Prisma client the handlers call, is not among the
    sources.  Module [prisma] below models the calls the handlers make after
    the Persistence contract of the specification (section 6), over the tables
    of the init migration: rows get their key from the table's sequence and
    their timestamps from the clock, a row whose [student_id] names no student
    is refused (foreign key), [update] of a missing row throws, [updateMany]
    reports how many rows matched.  The INTEGER and SERIAL columns hold 32-bit
    integers: the client throws when it is handed a number that does not fit
    one, as a value to store or as a key to look for. *)

(** Modelled from the spec: the round trip to the database that every call of
    the missing Prisma client makes.  A call can fail for reasons outside the
    program (connection lost, timeout); [faults] lists, call by call, whether
    the next one does. *)
Definition db_call : M unit := λ w,
  (match faults w with
   | true :: _ => Thrown
   | _ => Normal tt
   end, set_faults (drop 1) w).

(** The first [n] calls to the database go through. *)
Definition no_fault (n : nat) (w : World) : Prop := true ∉ take n (faults w).

#[global] Instance no_fault_dec n w : Decision (no_fault n w).
Proof. unfold no_fault. apply _. Defined.

(** Modelled from the spec: the range of the INTEGER and SERIAL columns of
    the init migration (INT4), which the missing Prisma client enforces. *)
Definition in_int4 (n : Z) : Prop := -2147483648 ≤ n ≤ 2147483647.

#[global] Instance in_int4_dec n : Decision (in_int4 n).
Proof. unfold in_int4. apply _. Defined.
#[global] Arguments in_int4_dec : simpl never.

Definition next_logId (d : Db) : Db :=
  mkDb (students d) (dailyLogs d) (interventions d) (logSeq d + 1) (interventionSeq d).
Definition next_interventionId (d : Db) : Db :=
  mkDb (students d) (dailyLogs d) (interventions d) (logSeq d) (interventionSeq d + 1).
Definition set_dailyLogs (f : list DailyLog → list DailyLog) (d : Db) : Db :=
  mkDb (students d) (f (dailyLogs d)) (interventions d) (logSeq d) (interventionSeq d).
Definition set_interventions (f : list Intervention → list Intervention) (d : Db) : Db :=
  mkDb (students d) (dailyLogs d) (f (interventions d)) (logSeq d) (interventionSeq d).

Module prisma.

(** Modelled from the spec: createCheckIn of the missing Prisma client,
    [dailyLog.create({ data: { studentId, focusMinutes, quizScore, status } })];
    it throws, before anything is sent to the database, when one of the two
    numbers does not fit its INTEGER column. *)
Definition dailyLog_create (studentId : string) (focusMinutes quizScore : Z)
    (status : string) : M DailyLog :=
  if decide (in_int4 focusMinutes ∧ in_int4 quizScore) then
    db_call;;
    id ← gets (λ w, logSeq (db w));
    modify (set_db next_logId);;
    known ← gets (λ w, bool_decide (studentId ∈ students (db w)));
    if known : bool then
      t ← gets now;
      let row := mkDailyLog id studentId focusMinutes quizScore status t in
      modify (set_db (set_dailyLogs (λ l, l ++ [row])));;
      mret row
    else throw
  else throw.

(** Modelled from the spec: createIntervention of the missing Prisma client,
    [intervention.create({ data: { studentId, taskAssigned: false,
    assignedTasks: null, completed: false } })] *)
Definition intervention_create (studentId : string) (taskAssigned : bool)
    (assignedTasks : option string) (completed : bool) : M Intervention :=
  db_call;;
  id ← gets (λ w, interventionSeq (db w));
  modify (set_db next_interventionId);;
  known ← gets (λ w, bool_decide (studentId ∈ students (db w)));
  if known : bool then
    t ← gets now;
    let row := mkIntervention id studentId taskAssigned assignedTasks completed t t in
    modify (set_db (set_interventions (λ l, l ++ [row])));;
    mret row
  else throw.

(** [where: { interventionId }] *)
Definition where_id (id : Z) (r : Intervention) : Prop := intervention_id r = id.

#[global] Instance where_id_dec id r : Decision (where_id id r).
Proof. unfold where_id. apply _. Defined.

(** Modelled from the spec: which keys the missing Prisma client accepts in a
    where clause on the SERIAL column [intervention_id].  A key outside the
    INT4 range is refused; in a table of that column no row has such a key.
    The tables of the model can hold any integer as a key, and a key that a
    row has is looked up like any other. *)
Definition key_fits (id : Z) (rows : list Intervention) : Prop :=
  in_int4 id ∨ Exists (where_id id) rows.

#[global] Instance key_fits_dec id rows : Decision (key_fits id rows).
Proof. unfold key_fits. apply _. Defined.
#[global] Arguments key_fits_dec : simpl never.

(** [data] applied to the rows that match. *)
Definition update_where (P : Intervention → Prop) `{∀ r, Decision (P r)}
    (data : Intervention → Intervention) (r : Intervention) : Intervention :=
  if decide (P r) then data r else r.

(** Modelled from the spec: updateIntervention of the missing Prisma client,
    [intervention.update({ where: { interventionId }, data })] *)
Definition intervention_update (id : Z) (data : Intervention → Intervention)
    : M Intervention :=
  db_call;;
  rows ← gets (λ w, interventions (db w));
  match filter (where_id id) rows with
  | r :: _ =>
      modify (set_db (set_interventions (fmap (update_where (where_id id) data))));;
      mret (data r)
  | [] => throw
  end.

(** Modelled from the spec: updateIntervention of the missing Prisma client on
    every row that matches, [intervention.updateMany({ where, data })], for a
    where clause [P] that names the key [id]; the result is [count].  It
    throws, before anything is sent to the database, when the key does not
    fit. *)
Definition intervention_updateMany (id : Z) (P : Intervention → Prop)
    `{∀ r, Decision (P r)} (data : Intervention → Intervention) : M nat :=
  rows ← gets (λ w, interventions (db w));
  if decide (key_fits id rows) then
    db_call;;
    modify (set_db (set_interventions (fmap (update_where P data))));;
    mret (length (filter P rows))
  else throw.

(** [orderBy: { createdAt: "desc" }] *)
Definition newer_first (a b : Intervention) : Prop := created_at b ≤ created_at a.

#[global] Instance newer_first_dec a b : Decision (newer_first a b).
Proof. unfold newer_first. apply _. Defined.

Definition orderBy_createdAt_desc (l : list Intervention) : list Intervention :=
  merge_sort newer_first l.

(** Modelled from the spec: findPendingInterventions of the missing Prisma
    client, [intervention.findMany({ where, orderBy: { createdAt: "desc" } })] *)
Definition intervention_findMany (P : Intervention → Prop) `{∀ r, Decision (P r)}
    : M (list Intervention) :=
  db_call;;
  rows ← gets (λ w, interventions (db w));
  mret (orderBy_createdAt_desc (filter P rows)).

(** Modelled from the spec: what a rolled-back transaction of the missing
    Prisma client leaves, the tables as they were; the sequences are not
    transactional. *)
Definition rollback (before after : Db) : Db :=
  mkDb (students before) (dailyLogs before) (interventions before)
       (logSeq after) (interventionSeq after).

(** Modelled from the spec: the atomic unit of the missing Prisma client,
    [$transaction(async (tx) => body)]: the body, then the commit. *)
Definition transaction {A} (body : M A) : M A := λ w,
  match (a ← body; db_call;; mret a) w with
  | (Normal a, w') => (Normal a, w')
  | (Thrown, w') => (Thrown, set_db (rollback (db w)) w')
  end.

End prisma.

(** ** The server (the entry file, in its fully wired variant) *)

Definition SIMULATION_MODE : bool := true.
Definition AUTO_APPROVE_DELAY : Z := 5000.

(** Inbound frames after [JSON.parse]: the envelope and the payload fields
    the handlers read, each possibly [undefined].  Scores, minutes and keys
    are integers of any size, as a client can send them; the INTEGER columns
    they are meant for are narrower. *)
Record Payload := mkPayload {
  token : option string;
  p_quizScore : option Z;
  p_focusMinutes : option Z;
  p_interventionId : option Z
}.

Record Envelope := mkEnvelope {
  type : option string;
  payload : option Payload
}.

(** Reading a property of, or destructuring, [undefined] throws. *)
Definition destructure {A} (v : option A) : M A :=
  match v with
  | Some a => mret a
  | None => throw
  end.

(** JavaScript truthiness of a [string | null]. *)
Definition truthy (s : option string) : bool :=
  match s with
  | Some s => bool_decide (s ≠ "")
  | None => false
  end.

Definition nl : string := String (Ascii.ascii_of_nat 10) EmptyString.

Definition combined_remediation : string :=
  "1. Complete chapter revision exercises" +:+ nl +:+
  "2. Practice focus techniques for 30 minutes" +:+ nl +:+
  "3. Retake the quiz (Target: 7+/10)".
Definition quiz_remediation : string :=
  "1. Review incorrect quiz answers" +:+ nl +:+
  "2. Complete practice problems" +:+ nl +:+
  "3. Retake the quiz (Target: 7+/10)".
Definition focus_remediation : string :=
  "1. Implement Pomodoro technique" +:+ nl +:+
  "2. Track focus time daily" +:+ nl +:+
  "3. Reach 60+ minutes tomorrow".

(** The [assignedTasks] chosen by the callback of [simulateN8nApproval]. *)
Definition remedialTasks (quizScore focusMinutes : Z) : string :=
  if (quizScore <? 7) && (focusMinutes <? 60) then combined_remediation
  else if quizScore <? 7 then quiz_remediation
  else focus_remediation.

Definition assign (tasks : string) (t : Z) (r : Intervention) : Intervention :=
  mkIntervention (intervention_id r) (student_id r) true (Some tasks)
                 (completed r) (created_at r) t.

Definition complete (t : Z) (r : Intervention) : Intervention :=
  mkIntervention (intervention_id r) (student_id r) (task_assigned r)
                 (assigned_tasks r) true (created_at r) t.

(** The callback [simulateN8nApproval] hands to [setTimeout]. *)
Definition approvalCallback (studentId : string) (interventionId quizScore focusMinutes : Z)
    : World → World :=
  try_catch
    (let assignedTasks := remedialTasks quizScore focusMinutes in
     t ← gets now;
     prisma.intervention_update interventionId (assign assignedTasks t);;
     sent ← call (WebSocketManager.sendToStudent studentId
                    (MsgInterventionAssigned interventionId assignedTasks));
     mret tt)
    (mret tt).

Definition simulateN8nApproval (studentId : string) (interventionId quizScore focusMinutes : Z)
    : M unit :=
  t ← gets now;
  modify (set_timers (λ l, l ++ [mkTimer (t + AUTO_APPROVE_DELAY) studentId
                                          interventionId quizScore focusMinutes])).

Definition isOnTrack (quizScore focusMinutes : Z) : bool :=
  (7 <=? quizScore) && (60 <=? focusMinutes).

Definition derivedStatus (quizScore focusMinutes : Z) : string :=
  if isOnTrack quizScore focusMinutes then "On Track" else "Pending Mentor Review".

Definition handleDailyCheckin (studentId : string) (payload : option Payload) (ws : nat)
    : World → World :=
  try_catch
    (p ← destructure payload;
     match p_quizScore p, p_focusMinutes p with
     | Some quizScore, Some focusMinutes =>
         let status := derivedStatus quizScore focusMinutes in
         if isOnTrack quizScore focusMinutes then
           dailyLog ← prisma.dailyLog_create studentId focusMinutes quizScore status;
           modify (ws_send ws (MsgCheckinOnTrack (log_id dailyLog)))
         else
           result ← prisma.transaction
             (dailyLog ← prisma.dailyLog_create studentId focusMinutes quizScore status;
              intervention ← prisma.intervention_create studentId false None false;
              mret (dailyLog, intervention));
           modify (ws_send ws (MsgCheckinPending (intervention_id (snd result))
                                                 (log_id (fst result))));;
           if SIMULATION_MODE then
             simulateN8nApproval studentId (intervention_id (snd result))
                                 quizScore focusMinutes
           else mret tt
     | _, _ =>
         modify (ws_send ws (MsgError "quizScore and focusMinutes are required"))
     end)
    (modify (ws_send ws (MsgError "Failed to process daily check-in"))).

(** [where: { interventionId, studentId, taskAssigned: true }] *)
Definition where_completion (interventionId : Z) (studentId : string) (r : Intervention) : Prop :=
  intervention_id r = interventionId ∧ student_id r = studentId ∧ task_assigned r = true.

#[global] Instance where_completion_dec id s r : Decision (where_completion id s r).
Proof. unfold where_completion. apply _. Defined.

(** [where: { studentId, taskAssigned: true, completed: false }] *)
Definition where_pending (studentId : string) (r : Intervention) : Prop :=
  student_id r = studentId ∧ task_assigned r = true ∧ completed r = false.

#[global] Instance where_pending_dec s r : Decision (where_pending s r).
Proof. unfold where_pending. apply _. Defined.

Definition handleRemedialCompletion (studentId : string) (payload : option Payload) (ws : nat)
    : World → World :=
  try_catch
    (p ← destructure payload;
     match p_interventionId p with
     | Some id =>
         if decide (id = 0) then
           modify (ws_send ws (MsgError "interventionId is required"))
         else
           t ← gets now;
           count ← prisma.intervention_updateMany id
             (where_completion id studentId) (complete t);
           if decide (count = 0%nat) then
             modify (ws_send ws (MsgError "Invalid intervention or not assigned"))
           else
             modify (ws_send ws (MsgRemedialCompleted id))
     | None =>
         modify (ws_send ws (MsgError "interventionId is required"))
     end)
    (modify (ws_send ws (MsgError "Failed to mark remedial as completed"))).

(** [GET /students/:studentId/pending-interventions], after the bearer-token
    middleware: the rows of the response, or the 500 answer. *)
Definition pendingInterventions (studentId : string) : M (list Intervention) :=
  prisma.intervention_findMany (where_pending studentId).

Section Server.

(** [jwt.verify] of the jsonwebtoken library, with the secret of the process. *)
Variable jwt_verify : string → JwtOutcome.

(** [studentId = v] on the variable of connection [ws]. *)
Definition assign_studentId (ws : nat) (v : option string) : World → World :=
  set_sessionIds (λ m, match v with
                       | Some s => <[ws := s]> m
                       | None => delete ws m
                       end).

Definition not_authenticated (ws : nat) : M unit :=
  modify (ws_send ws (MsgError "Not authenticated")).

(** [ws.on("message", ...)] of the connection whose socket is [ws]. *)
Definition onMessage (ws : nat) (message : option Envelope) : World → World :=
  try_catch
    (data ← destructure message;
     if decide (type data = Some "connect") then
       p ← destructure (payload data);
       let studentId := WebSocketManager.verifyToken jwt_verify (token p) in
       modify (assign_studentId ws studentId);;
       match studentId with
       | Some studentId =>
           if decide (studentId = "") then
             modify (ws_send ws (MsgError "Invalid token"));;
             modify (ws_close ws)
           else
             modify (WebSocketManager.addConnection studentId ws);;
             modify (ws_send ws (MsgConnected studentId SIMULATION_MODE))
       | None =>
           modify (ws_send ws (MsgError "Invalid token"));;
           modify (ws_close ws)
       end
     else if decide (type data = Some "daily_checkin") then
       studentId ← gets (λ w, sessionIds w !! ws);
       match studentId with
       | Some studentId =>
           if decide (studentId = "") then not_authenticated ws
           else modify (handleDailyCheckin studentId (payload data) ws)
       | None => not_authenticated ws
       end
     else if decide (type data = Some "remedial_completed") then
       studentId ← gets (λ w, sessionIds w !! ws);
       match studentId with
       | Some studentId =>
           if decide (studentId = "") then not_authenticated ws
           else modify (handleRemedialCompletion studentId (payload data) ws)
       | None => not_authenticated ws
       end
     else
       modify (ws_send ws (MsgError "Unknown message type")))
    (modify (ws_send ws (MsgError "Invalid message format"))).

(** The socket has closed; then [ws.on("close", ...)]. *)
Definition onClose (ws : nat) (w : World) : World :=
  let w := set_sockets (alter (λ s, mkSocket CLOSED (sent s)) ws) w in
  match sessionIds w !! ws with
  | Some studentId =>
      if decide (studentId = "") then w
      else WebSocketManager.removeConnection studentId w
  | None => w
  end.

(** [wss.on("connection", ...)]: a new open socket, its [studentId] null. *)
Definition onConnection (w : World) : World :=
  let ws := fresh (dom (sockets w)) in
  set_sessionIds (delete ws) (set_sockets (insert ws (mkSocket OPEN [])) w).

(** The oldest pending timer fires, at its due time at the earliest. *)
Definition onTimeout (w : World) : World :=
  match timers w with
  | t :: rest =>
      approvalCallback (t_studentId t) (t_interventionId t) (t_quizScore t) (t_focusMinutes t)
        (set_now (Z.max (due t)) (set_timers (λ _, rest) w))
  | [] => w
  end.

(** One turn of the event loop. *)
Inductive Event :=
| Connection
| Message (ws : nat) (message : option Envelope)
| Close (ws : nat)
| Timeout.

Definition step (w : World) (e : Event) : World :=
  match e with
  | Connection => onConnection w
  | Message ws message => onMessage ws message w
  | Close ws => onClose ws w
  | Timeout => onTimeout w
  end.

Definition run (es : list Event) (w : World) : World := foldl step w es.

End Server.

Definition emptyDb : Db := mkDb [] [] [] 1 1.
Definition boot : World := mkWorld ∅ ∅ ∅ emptyDb [] [] 0.

(** A verifier for the examples: two students hold a valid token each, one
    token has expired, anything else is not a token. *)
Definition example_jwt (token : string) : JwtOutcome :=
  if decide (token = "token-S1") then Decoded (Some "S1")
  else if decide (token = "token-S2") then Decoded (Some "S2")
  else if decide (token = "token-expired") then JwtThrows JwtExpired
  else JwtThrows JwtMalformed.

Definition connect (token : string) : option Envelope :=
  Some (mkEnvelope (Some "connect") (Some (mkPayload (Some token) None None None))).
Definition daily_checkin (quizScore focusMinutes : Z) : option Envelope :=
  Some (mkEnvelope (Some "daily_checkin")
          (Some (mkPayload None (Some quizScore) (Some focusMinutes) None))).
Definition remedial_completed (interventionId : Z) : option Envelope :=
  Some (mkEnvelope (Some "remedial_completed")
          (Some (mkPayload None None None (Some interventionId)))).

(** The server once S1 and S2 have signed up through [POST /auth]. *)
Definition enrolled : World :=
  set_db (λ d, mkDb ["S1"; "S2"] (dailyLogs d) (interventions d) (logSeq d) (interventionSeq d)) boot.

(** Two sockets are open, nobody has authenticated yet. *)
Definition two_sockets : World :=
  run example_jwt [Connection; Connection] enrolled.

(** Both sockets have authenticated as S1, socket 0 first. *)
Definition S1_bound_twice : World :=
  run example_jwt [Message 0%nat (connect "token-S1");
                   Message 1%nat (connect "token-S1")] two_sockets.

(** S1 is connected on socket 0. *)
Definition S1_connected : World :=
  run example_jwt [Connection; Message 0%nat (connect "token-S1")] enrolled.

(** S1 has checked in below the thresholds; the review is pending. *)
Definition S1_pending : World :=
  run example_jwt [Message 0%nat (daily_checkin 5 40)] S1_connected.

(** The review of S1 has fired while S1 was connected. *)
Definition S1_assigned : World := run example_jwt [Timeout] S1_pending.

(** S1 has reported the remedial task as completed. *)
Definition S1_completed : World :=
  run example_jwt [Message 0%nat (remedial_completed 1)] S1_assigned.

(** S2 has checked in below the thresholds and has gone away before the
    review fires. *)
Definition S2_gone : World :=
  run example_jwt [Connection; Message 0%nat (connect "token-S2");
                   Message 0%nat (daily_checkin 5 40); Close 0%nat] enrolled.

(** ** The HTTP routes (src/middleware/auth.ts and the entry file) *)

Definition space : Ascii.ascii := Ascii.ascii_of_nat 32.

(** [s.split(" ")] *)
Fixpoint split_space (s : string) : list string :=
  match s with
  | EmptyString => [EmptyString]
  | String c s' =>
      if decide (c = space) then EmptyString :: split_space s'
      else match split_space s' with
           | piece :: pieces => String c piece :: pieces
           | [] => [String c EmptyString]
           end
  end.

(** What a route answers: [res.status(statusCode).json(body)].  Of a body
    only the fields that vary are kept. *)
Inductive ResponseBody :=
| BodyError (error : string)
| BodyPending (studentId : string) (pendingInterventions : list Intervention)
| BodyApproved (offline : bool) (intervention : Intervention)
| BodyManualApproval (intervention : Intervention) (studentNotified : bool).

Record Response := mkResponse {
  statusCode : nat;
  body : ResponseBody
}.

(** A middleware answers itself or hands over, with [req.user] set. *)
Inductive Middleware :=
| Next (user : option string)
| Respond (res : Response).

(** The body of [POST /intervention/approve]. *)
Record ApprovalBody := mkApprovalBody {
  a_studentId : option string;
  a_interventionId : option Z;
  a_assignedTasks : option string;
  a_approved : option bool
}.

(** The body of [POST /test/manual-approve]. *)
Record ManualApprovalBody := mkManualApprovalBody {
  m_interventionId : option Z;
  m_assignedTasks : option string
}.

(** [try { ... res.json(...) } catch (error) { res.status(500).json(...) }] *)
Definition respond_or (route : M Response) (failure : Response) : World → Response * World :=
  λ w, match route w with
       | (Normal res, w') => (res, w')
       | (Thrown, w') => (failure, w')
       end.

(** Modelled from the spec: the lookup by key of the missing Prisma client,
    [intervention.findUnique({ where: { interventionId } })]; null when no row
    has the key.  It throws, before anything is sent to the database, when the
    key does not fit. *)
Definition intervention_findUnique (id : Z) : M (option Intervention) :=
  rows ← gets (λ w, interventions (db w));
  if decide (prisma.key_fits id rows) then
    db_call;;
    mret (head (filter (prisma.where_id id) rows))
  else throw.

(** [POST /intervention/approve].  The frame is the [intervention_assigned]
    frame with its marker [manual] instead of [simulated]. *)
Definition postInterventionApprove (b : ApprovalBody) : World → Response * World :=
  respond_or
    (match a_studentId b, a_interventionId b, a_assignedTasks b with
     | Some studentId, Some interventionId, Some assignedTasks =>
         if decide (studentId = "" ∨ interventionId = 0 ∨ assignedTasks = "") then
           mret (mkResponse 400 (BodyError "Missing required fields"))
         else
           t ← gets now;
           updatedIntervention ←
             prisma.intervention_update interventionId (assign assignedTasks t);
           sent ← call (WebSocketManager.sendToStudent studentId
                          (MsgInterventionAssigned interventionId assignedTasks));
           mret (mkResponse 200 (BodyApproved (negb sent) updatedIntervention))
     | _, _, _ => mret (mkResponse 400 (BodyError "Missing required fields"))
     end)
    (mkResponse 500 (BodyError "Failed to process intervention approval")).

(** [assignedTasks || `Manual test task for intervention ${interventionId}`] *)
Definition manualTasks (assignedTasks : option string) (interventionId : Z) : string :=
  match assignedTasks with
  | Some tasks =>
      if decide (tasks = "")
      then "Manual test task for intervention " +:+ pretty interventionId
      else tasks
  | None => "Manual test task for intervention " +:+ pretty interventionId
  end.

(** [POST /test/manual-approve] *)
Definition postManualApprove (b : ManualApprovalBody) : World → Response * World :=
  respond_or
    (match m_interventionId b with
     | Some interventionId =>
         if decide (interventionId = 0) then
           mret (mkResponse 400 (BodyError "interventionId required"))
         else
           intervention ← intervention_findUnique interventionId;
           match intervention with
           | Some intervention =>
               let tasks := manualTasks (m_assignedTasks b) interventionId in
               t ← gets now;
               updated ← prisma.intervention_update interventionId (assign tasks t);
               sent ← call (WebSocketManager.sendToStudent (student_id intervention)
                              (MsgInterventionAssigned interventionId tasks));
               mret (mkResponse 200 (BodyManualApproval updated sent))
           | None => mret (mkResponse 404 (BodyError "Intervention not found"))
           end
     | None => mret (mkResponse 400 (BodyError "interventionId required"))
     end)
    (mkResponse 500 (BodyError "Failed to process manual approval")).

Section Routes.

(** [jwt.verify] of the jsonwebtoken library, with the secret of the process. *)
Variable jwt_verify : string → JwtOutcome.

(** [authHeader && authHeader.split(" ")[1]] *)
Definition bearerToken (authorization : option string) : option string :=
  match authorization with
  | Some authHeader =>
      if decide (authHeader = "") then Some "" else split_space authHeader !! 1%nat
  | None => None
  end.

(** [authenticateToken] of src/middleware/auth.ts, on the [authorization]
    header of the request. *)
Definition authenticateToken (authorization : option string) : Middleware :=
  match bearerToken authorization with
  | Some token =>
      if decide (token = "") then
        Respond (mkResponse 401 (BodyError "Access token required"))
      else
        match jwt_verify token with
        | JwtThrows _ => Respond (mkResponse 403 (BodyError "Invalid or expired token"))
        | Decoded user => Next user
        end
  | None => Respond (mkResponse 401 (BodyError "Access token required"))
  end.

(** [GET /students/:studentId/pending-interventions] behind
    [authenticateToken]. *)
Definition getPendingInterventions (authorization : option string) (studentId : string)
    : World → Response * World :=
  match authenticateToken authorization with
  | Next _ =>
      respond_or
        (pendingInterventions ← pendingInterventions studentId;
         mret (mkResponse 200 (BodyPending studentId pendingInterventions)))
        (mkResponse 500 (BodyError "Failed to fetch pending interventions"))
  | Respond res => λ w, (res, w)
  end.

Inductive Request :=
| GetPendingInterventions (authorization : option string) (studentId : string)
| PostInterventionApprove (b : ApprovalBody)
| PostManualApprove (b : ManualApprovalBody).

Definition serve (req : Request) : World → Response * World :=
  match req with
  | GetPendingInterventions authorization studentId =>
      getPendingInterventions authorization studentId
  | PostInterventionApprove b => postInterventionApprove b
  | PostManualApprove b => postManualApprove b
  end.

(** What the process reacts to: the events of its sockets and timers, and
    the requests to its routes. *)
Inductive Input :=
| FromSocket (e : Event)
| FromHttp (req : Request).

Definition react (w : World) (i : Input) : World :=
  match i with
  | FromSocket e => step jwt_verify w e
  | FromHttp req => (serve req w).2
  end.

Definition reactAll (inputs : list Input) (w : World) : World := foldl react w inputs.

End Routes.

(** ** Vocabulary of the invariants *)

(** A computation keeps a relation between the state it starts from and the
    state it leaves, however it completes. *)
Definition Keeps (R : relation World) {A} (m : M A) : Prop := ∀ w, R w (m w).2.

(** A later version of the same intervention: same key, owner and creation
    time, and no step back in its life cycle. *)
Definition evolves (r r' : Intervention) : Prop :=
  intervention_id r' = intervention_id r ∧ student_id r' = student_id r ∧
  created_at r' = created_at r ∧
  (task_assigned r = true → task_assigned r' = true) ∧
  (completed r = true → completed r' = true).

(** The tables of [w'] continue those of [w]: the daily logs of [w] are still
    there, unchanged and in place, and so are its interventions, each evolved. *)
Definition continues (w w' : World) : Prop :=
  students (db w') = students (db w) ∧
  dailyLogs (db w) `prefix_of` dailyLogs (db w') ∧
  ∃ rows added, interventions (db w') = rows ++ added ∧
                Forall2 evolves (interventions (db w)) rows.

(** A component of the state is the same. *)
Definition unchanged {A} (f : World → A) (w w' : World) : Prop := f w' = f w.

(** Between [w] and [w'] the registry is the same, and socket [ws] is as it
    was unless it is the one bound to student [s]. *)
Definition spares (s : string) (ws : nat) (w w' : World) : Prop :=
  connections w' = connections w ∧
  (connections w !! s ≠ Some ws → sockets w' !! ws = sockets w !! ws).

Section Invariants.

Variable jwt_verify : string → JwtOutcome.

(** Every identity the registry binds is non-empty and is the identity some
    token verifies to. *)
Definition bound_are_verified (w : World) : Prop :=
  ∀ s ws, connections w !! s = Some ws →
          s ≠ "" ∧ ∃ token, jwt_verify token = Decoded (Some s).

(** Every pending review is for a check-in below the thresholds and has its
    intervention in the table, owned by the student the timer names. *)
Definition timers_backed (w : World) : Prop :=
  ∀ t, t ∈ timers w →
       isOnTrack (t_quizScore t) (t_focusMinutes t) = false ∧
       ∃ r, r ∈ interventions (db w) ∧
            intervention_id r = t_interventionId t ∧ student_id r = t_studentId t.

End Invariants.

(** A verifier for which every signature is good but no token names a
    student: one carries an empty [studentId], the others none. *)
Definition anonymous_jwt (token : string) : JwtOutcome :=
  if decide (token = "token-empty") then Decoded (Some "") else Decoded None.

(** * Properties *)

Import WebSocketManager.

(** ** The registry *)

Lemma getConnection_addConnection s ws w :
  getConnection s (addConnection s ws w) = Some ws.
Proof. apply lookup_insert_eq. Qed.

Lemma getConnection_addConnection_ne s s' ws w :
  s ≠ s' → getConnection s' (addConnection s ws w) = getConnection s' w.
Proof. intros. by apply lookup_insert_ne. Qed.

Lemma getConnection_removeConnection s w :
  getConnection s (removeConnection s w) = None.
Proof. apply lookup_delete_eq. Qed.

Lemma getConnection_removeConnection_ne s s' w :
  s ≠ s' → getConnection s' (removeConnection s w) = getConnection s' w.
Proof. intros. by apply lookup_delete_ne. Qed.

Lemma ws_sent_ws_send ws msg w :
  ws_readyState ws w = OPEN → ws_sent ws (ws_send ws msg w) = ws_sent ws w ++ [msg].
Proof.
  unfold ws_readyState, ws_sent, ws_send; simpl. rewrite lookup_alter_eq.
  by destruct (sockets w !! ws).
Qed.

Lemma ws_readyState_ws_send ws ws' msg w :
  ws_readyState ws' (ws_send ws msg w) = ws_readyState ws' w.
Proof.
  unfold ws_readyState, ws_send; simpl.
  destruct (decide (ws = ws')) as [->|Hne].
  - rewrite lookup_alter_eq. by destruct (sockets w !! ws').
  - by rewrite lookup_alter_ne.
Qed.

(** C5. [sendToStudent] answers [true] exactly when the registry holds a
    socket for the identity and that socket is [OPEN]; the frame is then
    handed to that socket.  In every other case, and in particular when no
    socket is bound, it answers [false] and the whole state is as before. *)
Theorem sendToStudent_true_iff_bound_and_open (s : string) (msg : ServerMsg) (w : World) :
  ((sendToStudent s msg w).1 = true ↔
     ∃ ws, getConnection s w = Some ws ∧ ws_readyState ws w = OPEN) ∧
  (∀ ws, getConnection s w = Some ws → ws_readyState ws w = OPEN →
     (sendToStudent s msg w).2 = ws_send ws msg w ∧
     ws_sent ws (sendToStudent s msg w).2 = ws_sent ws w ++ [msg]) ∧
  ((sendToStudent s msg w).1 = false → (sendToStudent s msg w).2 = w) ∧
  (getConnection s w = None → sendToStudent s msg w = (false, w)).
Proof.
  unfold sendToStudent, getConnection.
  destruct (connections w !! s) as [ws|] eqn:Hs; simpl.
  - destruct (decide (ws_readyState ws w = OPEN)) as [Ho|Hn]; simpl.
    + split_and!; try done.
      * split; eauto.
      * intros ws' [= <-] _. split; [done|]. by apply ws_sent_ws_send.
    + split_and!; try done.
      * split; [done|]. intros (ws' & [= <-] & Ho). done.
      * intros ws' [= <-] Ho. done.
  - split_and!; try done. split; [done|]. intros (ws & ? & _). done.
Qed.

(** ** The session protocol *)

(** Unfolds one handler down to the state it returns. *)
Ltac exec :=
  cbv [try_catch destructure mbind M_bind mret M_ret modify gets throw call
       not_authenticated];
  cbn [fst snd type payload token p_quizScore p_focusMinutes p_interventionId].

(** Settles the [decide]s on closed equations. *)
Ltac decide_all :=
  repeat first [rewrite decide_True by done | rewrite decide_False by done].

Section SessionProperties.

Variable jwt_verify : string → JwtOutcome.

Lemma connect_accepted ws tok s w :
  jwt_verify tok = Decoded (Some s) → s ≠ "" →
  onMessage jwt_verify ws (connect tok) w =
  ws_send ws (MsgConnected s SIMULATION_MODE)
    (addConnection s ws (assign_studentId ws (Some s) w)).
Proof.
  intros Hv Hs. unfold onMessage, connect. exec.
  rewrite decide_True by done. cbn. unfold WebSocketManager.verifyToken. rewrite Hv.
  by rewrite decide_False.
Qed.

Lemma connect_rejected ws tok p w :
  token p = tok → truthy (verifyToken jwt_verify tok) = false →
  onMessage jwt_verify ws (Some (mkEnvelope (Some "connect") (Some p))) w =
  ws_close ws (ws_send ws (MsgError "Invalid token")
                 (assign_studentId ws (verifyToken jwt_verify tok) w)).
Proof.
  intros <- Hv. unfold onMessage. exec.
  rewrite decide_True by done. cbn.
  destruct (verifyToken jwt_verify (token p)) as [s|] eqn:E; [|done].
  simpl in Hv. apply bool_decide_eq_false in Hv.
  destruct (decide (s = "")) as [->|Hne]; [done|]. by destruct Hv.
Qed.

Lemma verifyToken_throws tok e :
  jwt_verify tok = JwtThrows e → verifyToken jwt_verify (Some tok) = None.
Proof. intros Hv. unfold WebSocketManager.verifyToken. by rewrite Hv. Qed.

Lemma onClose_connections ws w :
  connections (onClose ws w) =
  match sessionIds w !! ws with
  | Some s => if decide (s = "") then connections w else delete s (connections w)
  | None => connections w
  end.
Proof.
  unfold onClose; simpl. destruct (sessionIds w !! ws) as [s|]; [|done].
  by destruct (decide (s = "")).
Qed.

Lemma onClose_readyState ws w : ws_readyState ws (onClose ws w) = CLOSED.
Proof.
  assert (∀ w', sockets w' = alter (λ s, mkSocket CLOSED (sent s)) ws (sockets w) →
                ws_readyState ws w' = CLOSED) as H.
  { intros w' E. unfold ws_readyState. rewrite E, lookup_alter_eq.
    by destruct (sockets w !! ws). }
  unfold onClose; simpl. destruct (sessionIds w !! ws) as [s|]; [|by apply H].
  destruct (decide (s = "")); by apply H.
Qed.

(** C1 (as the code has it).  Two connections that authenticate as the same
    identity, one after the other: the registry then holds the second one,
    and only it.  [removeConnection] deletes by identity alone, so the close
    of the first connection, coming late, empties the entry although it
    refers to the second. *)
Theorem rebind_last_wins_and_stale_close_unbinds (ws1 ws2 : nat) (tok s : string) (w : World) :
  jwt_verify tok = Decoded (Some s) → s ≠ "" →
  let w1 := onMessage jwt_verify ws1 (connect tok) w in
  let w2 := onMessage jwt_verify ws2 (connect tok) w1 in
  getConnection s w2 = Some ws2 ∧
  connections w2 = <[s := ws2]> (connections w) ∧
  (∀ w', getConnection s (removeConnection s w') = None) ∧
  getConnection s (onClose ws1 w2) = None ∧
  (∀ s', s' ≠ s → getConnection s' (onClose ws1 w2) = getConnection s' w).
Proof.
  intros Hv Hs w1 w2. subst w1 w2.
  rewrite !(connect_accepted _ _ _ _ Hv Hs).
  assert (sessionIds
            (ws_send ws2 (MsgConnected s SIMULATION_MODE)
               (addConnection s ws2
                  (assign_studentId ws2 (Some s)
                     (ws_send ws1 (MsgConnected s SIMULATION_MODE)
                        (addConnection s ws1 (assign_studentId ws1 (Some s) w))))))
            !! ws1 = Some s) as Hsess.
  { simpl. destruct (decide (ws2 = ws1)) as [->|Hne].
    - apply lookup_insert_eq.
    - rewrite lookup_insert_ne by done. apply lookup_insert_eq. }
  split_and!.
  - apply lookup_insert_eq.
  - simpl. apply insert_insert_eq.
  - intros w'. apply getConnection_removeConnection.
  - unfold getConnection. rewrite onClose_connections, Hsess.
    rewrite decide_False by done. apply lookup_delete_eq.
  - intros s' Hne. unfold getConnection. rewrite onClose_connections, Hsess.
    rewrite decide_False by done. rewrite lookup_delete_ne by done. simpl.
    by rewrite !lookup_insert_ne by done.
Qed.

(** C6. A credential that [jwt.verify] refuses -- malformed, expired, wrong
    signature -- makes [verifyToken] return null, nothing is thrown.  The
    connect message carrying it is answered with the error frame, the socket
    is closed, and the registry is left as it was, also once the close event
    has been handled. *)
Theorem invalid_credential_terminates_session (ws : nat) (tok : string) (e : JwtError) (w : World) :
  jwt_verify tok = JwtThrows e →
  verifyToken jwt_verify (Some tok) = None ∧
  let w' := onMessage jwt_verify ws (connect tok) w in
  w' = ws_close ws (ws_send ws (MsgError "Invalid token") (assign_studentId ws None w)) ∧
  connections w' = connections w ∧
  sessionIds w' !! ws = None ∧
  (ws_readyState ws w = OPEN →
     ws_sent ws w' = ws_sent ws w ++ [MsgError "Invalid token"] ∧
     ws_readyState ws w' = CLOSING) ∧
  connections (onClose ws w') = connections w.
Proof.
  intros Hv. pose proof (verifyToken_throws _ _ Hv) as Hn.
  split; [done|]. intros w'. subst w'. unfold connect.
  rewrite (connect_rejected ws (Some tok)) by (try done; by rewrite Hn).
  rewrite Hn. split_and!; try done.
  - simpl. apply lookup_delete_eq.
  - intros Ho. unfold ws_sent, ws_readyState in *; simpl.
    rewrite !lookup_alter_eq. destruct (sockets w !! ws) as [sk|]; [|done].
    simpl in *. by rewrite Ho.
  - rewrite onClose_connections. simpl. by rewrite lookup_delete_eq.
Qed.

Lemma unauthenticated_rejected ws t p w :
  truthy (sessionIds w !! ws) = false →
  t = "daily_checkin" ∨ t = "remedial_completed" →
  onMessage jwt_verify ws (Some (mkEnvelope (Some t) p)) w =
  ws_send ws (MsgError "Not authenticated") w.
Proof.
  intros Hs Ht. unfold onMessage. exec.
  destruct (sessionIds w !! ws) as [s|] eqn:E.
  - simpl in Hs. apply bool_decide_eq_false in Hs.
    assert (s = "") as -> by (destruct (decide (s = "")); [done | by destruct Hs]).
    destruct Ht as [-> | ->]; decide_all; cbv beta; by rewrite E.
  - destruct Ht as [-> | ->]; decide_all; cbv beta; by rewrite E.
Qed.

Lemma unknown_type_rejected ws t p w :
  t ≠ Some "connect" → t ≠ Some "daily_checkin" → t ≠ Some "remedial_completed" →
  onMessage jwt_verify ws (Some (mkEnvelope t p)) w =
  ws_send ws (MsgError "Unknown message type") w.
Proof.
  intros H1 H2 H3. unfold onMessage. exec.
  by rewrite !decide_False by done.
Qed.

(** C7. Before authentication a [daily_checkin] or [remedial_completed]
    message is answered with an error frame and nothing else happens: the
    handler is not run and the session variable, the registry, the database
    and the timers are as before.  A message of any other type than the three
    known ones is answered with an error frame in every state, and the socket
    stays as open as it was. *)
Theorem unauthenticated_or_unknown_message_only_errors (ws : nat) (t : option string) (p : option Payload) (w : World) :
  let w' := onMessage jwt_verify ws (Some (mkEnvelope t p)) w in
  (truthy (sessionIds w !! ws) = false →
   t = Some "daily_checkin" ∨ t = Some "remedial_completed" →
   w' = ws_send ws (MsgError "Not authenticated") w) ∧
  (t ≠ Some "connect" → t ≠ Some "daily_checkin" → t ≠ Some "remedial_completed" →
   w' = ws_send ws (MsgError "Unknown message type") w) ∧
  (∀ msg, w' = ws_send ws msg w →
     ws_readyState ws w' = ws_readyState ws w ∧
     sessionIds w' = sessionIds w ∧ connections w' = connections w ∧
     db w' = db w ∧ timers w' = timers w ∧
     ∀ ws', ws' ≠ ws → sockets w' !! ws' = sockets w !! ws').
Proof.
  intros w'. subst w'. split_and!.
  - intros Hs [-> | ->]; apply unauthenticated_rejected; auto.
  - apply unknown_type_rejected.
  - intros msg ->. split_and!; try done.
    + apply ws_readyState_ws_send.
    + intros ws' Hne. simpl. by rewrite lookup_alter_ne.
Qed.

(** C10. A connect message on a session already authenticated as [a], with a
    valid credential of another identity [b], is accepted: the session
    variable becomes [b], the registry binds [b] to this socket and a fresh
    confirmation is sent, while the entry of [a] stays.  The close handler
    then removes the entry of [b] only: the entry of [a] still points at the
    socket, now closed. *)
Theorem reconnect_rebinds_and_leaves_stale_entry (ws : nat) (tok a b : string) (w : World) :
  sessionIds w !! ws = Some a →
  getConnection a w = Some ws →
  jwt_verify tok = Decoded (Some b) → b ≠ "" → a ≠ b →
  let w' := onMessage jwt_verify ws (connect tok) w in
  sessionIds w' !! ws = Some b ∧
  getConnection b w' = Some ws ∧
  getConnection a w' = Some ws ∧
  (ws_readyState ws w = OPEN →
     ws_sent ws w' = ws_sent ws w ++ [MsgConnected b SIMULATION_MODE]) ∧
  getConnection b (onClose ws w') = None ∧
  getConnection a (onClose ws w') = Some ws ∧
  ws_readyState ws (onClose ws w') = CLOSED.
Proof.
  intros Hsa Hca Hv Hb Hab w'. subst w'.
  rewrite (connect_accepted _ _ _ _ Hv Hb).
  assert (sessionIds (ws_send ws (MsgConnected b SIMULATION_MODE)
            (addConnection b ws (assign_studentId ws (Some b) w))) !! ws = Some b)
    as Hsb by apply lookup_insert_eq.
  unfold getConnection in *. split_and!.
  - done.
  - apply lookup_insert_eq.
  - simpl. by rewrite lookup_insert_ne.
  - intros Ho. unfold ws_sent, ws_readyState in *; simpl.
    rewrite lookup_alter_eq. by destruct (sockets w !! ws).
  - rewrite onClose_connections, Hsb, decide_False by done. apply lookup_delete_eq.
  - rewrite onClose_connections, Hsb, decide_False by done.
    rewrite lookup_delete_ne by done. simpl. by rewrite lookup_insert_ne.
  - apply onClose_readyState.
Qed.

End SessionProperties.

(** ** Check-ins *)

(** Unfolds the persistence calls as well. *)
Ltac exec_db :=
  exec;
  cbv [prisma.transaction prisma.dailyLog_create prisma.intervention_create
       prisma.intervention_update prisma.intervention_updateMany
       prisma.intervention_findMany db_call simulateN8nApproval
       mbind M_bind mret M_ret modify gets throw];
  cbn.

(** Settles a [decide] on "the student is known, no call fails and the
    scores fit their columns". *)
Ltac settle_decide :=
  let Hd := fresh "Hd" in
  case_decide as Hd;
    [ destruct Hd as (? & ? & ? & ?);
      try (exfalso;
           first [ contradiction
                 | match goal with H : ¬ (in_int4 _ ∧ in_int4 _) |- _ => by apply H end
                 | match goal with H : _ ∉ _ |- _ => apply H; cbn; compute_done end ])
    | try (exfalso; apply Hd; split_and!; first [assumption | cbn; compute_done]) ].

(** C3. The status derived from a check-in is "On Track" exactly when the
    quiz score is at least 7 and the focus time at least 60 minutes, and
    "Pending Mentor Review" in every other case. *)
Theorem derivedStatus_on_track_iff (quizScore focusMinutes : Z) :
  (isOnTrack quizScore focusMinutes = true ↔ 7 ≤ quizScore ∧ 60 ≤ focusMinutes) ∧
  (derivedStatus quizScore focusMinutes = "On Track" ↔
     7 ≤ quizScore ∧ 60 ≤ focusMinutes) ∧
  (derivedStatus quizScore focusMinutes = "Pending Mentor Review" ↔
     ¬ (7 ≤ quizScore ∧ 60 ≤ focusMinutes)) ∧
  derivedStatus 7 60 = "On Track" ∧
  derivedStatus 6 60 = "Pending Mentor Review" ∧
  derivedStatus 7 59 = "Pending Mentor Review".
Proof.
  assert (isOnTrack quizScore focusMinutes = true ↔ 7 ≤ quizScore ∧ 60 ≤ focusMinutes) as H.
  { unfold isOnTrack. rewrite andb_true_iff, !Z.leb_le. done. }
  unfold derivedStatus.
  destruct (isOnTrack quizScore focusMinutes); split_and!; try done.
  - split; [intros _; by apply H | done].
  - split; [done | intros Hn; destruct Hn; by apply H].
  - split; [done | intros Hc; by apply H in Hc].
  - split; [intros _ Hc; by apply H in Hc | done].
Qed.

Lemma checkin_without_scores_refused (studentId : string) (p : Payload) (ws : nat) (w : World) :
  p_quizScore p = None ∨ p_focusMinutes p = None →
  handleDailyCheckin studentId (Some p) ws w =
  ws_send ws (MsgError "quizScore and focusMinutes are required") w.
Proof.
  intros [Hp|Hp]; unfold handleDailyCheckin; exec; rewrite Hp; [done|].
  by destruct (p_quizScore p).
Qed.

(** C4. A check-in that is not on track stores one daily log and one
    intervention (not assigned, not completed) of the same student, answers
    with the pending status and the key of that intervention, and schedules
    the review -- or, when the student is unknown, a score does not fit its
    INTEGER column or one of the three calls of the transaction fails, stores
    neither and answers with the failure.  A check-in that is on track stores
    one daily log, when the call succeeds, and never an intervention. *)
Theorem checkin_records_are_created_atomically (studentId : string) (p : Payload) (ws : nat) (quizScore focusMinutes : Z) (w : World) :
  p_quizScore p = Some quizScore → p_focusMinutes p = Some focusMinutes →
  let w' := handleDailyCheckin studentId (Some p) ws w in
  let d := db w in
  let failed := ws_send ws (MsgError "Failed to process daily check-in") w in
  if isOnTrack quizScore focusMinutes then
    interventions (db w') = interventions d ∧ timers w' = timers w ∧
    if decide (studentId ∈ students d ∧ no_fault 1 w ∧
               in_int4 focusMinutes ∧ in_int4 quizScore) then
      dailyLogs (db w') =
        dailyLogs d ++ [mkDailyLog (logSeq d) studentId focusMinutes quizScore
                                   "On Track" (now w)] ∧
      sockets w' = sockets (ws_send ws (MsgCheckinOnTrack (logSeq d)) w)
    else
      dailyLogs (db w') = dailyLogs d ∧ sockets w' = sockets failed
  else
    if decide (studentId ∈ students d ∧ no_fault 3 w ∧
               in_int4 focusMinutes ∧ in_int4 quizScore) then
      dailyLogs (db w') =
        dailyLogs d ++ [mkDailyLog (logSeq d) studentId focusMinutes quizScore
                                   "Pending Mentor Review" (now w)] ∧
      interventions (db w') =
        interventions d ++ [mkIntervention (interventionSeq d) studentId false None
                                           false (now w) (now w)] ∧
      sockets w' =
        sockets (ws_send ws (MsgCheckinPending (interventionSeq d) (logSeq d)) w) ∧
      timers w' =
        timers w ++ [mkTimer (now w + AUTO_APPROVE_DELAY) studentId
                             (interventionSeq d) quizScore focusMinutes]
    else
      dailyLogs (db w') = dailyLogs d ∧ interventions (db w') = interventions d ∧
      sockets w' = sockets failed ∧ timers w' = timers w.
Proof.
  intros Hq Hf w' d failed. subst w' d failed.
  destruct w as [conns socks sess [studs logs ivs lseq iseq] fl tm nw].
  unfold handleDailyCheckin, derivedStatus, no_fault.
  destruct (decide (in_int4 focusMinutes ∧ in_int4 quizScore)) as [[Hfit Hfit']|Hfit];
    destruct (isOnTrack quizScore focusMinutes) eqn:Hon;
    destruct (decide (studentId ∈ studs)) as [Hin|Hin].
  - destruct fl as [|[] fl]; exec_db; rewrite Hq, Hf, Hon; exec_db;
      rewrite (decide_True (P := in_int4 focusMinutes ∧ in_int4 quizScore)) by done; cbn;
      rewrite ?(bool_decide_eq_true_2 _ Hin); cbn; settle_decide; done.
  - destruct fl as [|[] fl]; exec_db; rewrite Hq, Hf, Hon; exec_db;
      rewrite (decide_True (P := in_int4 focusMinutes ∧ in_int4 quizScore)) by done; cbn;
      rewrite ?(bool_decide_eq_false_2 _ Hin); cbn; settle_decide; done.
  - destruct fl as [|[] [|[] [|[] fl]]]; exec_db; rewrite Hq, Hf, Hon; exec_db;
      rewrite (decide_True (P := in_int4 focusMinutes ∧ in_int4 quizScore)) by done; cbn;
      rewrite ?(bool_decide_eq_true_2 _ Hin); cbn; settle_decide; done.
  - destruct fl as [|[] [|[] [|[] fl]]]; exec_db; rewrite Hq, Hf, Hon; exec_db;
      rewrite (decide_True (P := in_int4 focusMinutes ∧ in_int4 quizScore)) by done; cbn;
      rewrite ?(bool_decide_eq_false_2 _ Hin); cbn; settle_decide; done.
  - exec_db; rewrite Hq, Hf, Hon; exec_db; rewrite (decide_False (P := in_int4 focusMinutes ∧ in_int4 quizScore)) by done; cbn;
      settle_decide; done.
  - exec_db; rewrite Hq, Hf, Hon; exec_db; rewrite (decide_False (P := in_int4 focusMinutes ∧ in_int4 quizScore)) by done; cbn;
      settle_decide; done.
  - exec_db; rewrite Hq, Hf, Hon; exec_db; rewrite (decide_False (P := in_int4 focusMinutes ∧ in_int4 quizScore)) by done; cbn;
      settle_decide; done.
  - exec_db; rewrite Hq, Hf, Hon; exec_db; rewrite (decide_False (P := in_int4 focusMinutes ∧ in_int4 quizScore)) by done; cbn;
      settle_decide; done.
Qed.

(** ** Interventions *)

Section Tables.

Context (P : Intervention → Prop) `{∀ r, Decision (P r)}.

Lemma no_match_count (l : list Intervention) :
  length (filter P l) = 0%nat ↔ ¬ ∃ r, r ∈ l ∧ P r.
Proof.
  split.
  - intros Hl (r & Hin & HP). apply nil_length_inv in Hl.
    by apply (filter_nil_not_elem_of P l r).
  - intros Hn. destruct (filter P l) as [|r l'] eqn:E; [done|]. destruct Hn.
    assert (r ∈ filter P l) as Hr by (rewrite E; apply list_elem_of_here).
    apply list_elem_of_filter in Hr as [HP Hin]. by exists r.
Qed.

Lemma update_where_no_match data (l : list Intervention) :
  (¬ ∃ r, r ∈ l ∧ P r) → prisma.update_where P data <$> l = l.
Proof.
  intros Hn. induction l as [|r l IH]; [done|]. cbn. f_equal.
  - unfold prisma.update_where. case_decide; [|done].
    destruct Hn. exists r. split; [apply list_elem_of_here | done].
  - apply IH. intros (r' & Hin & HP). destruct Hn. exists r'.
    split; [by apply list_elem_of_further | done].
Qed.

Lemma update_where_match data (l : list Intervention) r :
  r ∈ l → P r → data r ∈ prisma.update_where P data <$> l.
Proof.
  intros Hin HP. apply list_elem_of_fmap. exists r. split; [|done].
  unfold prisma.update_where. by rewrite decide_True.
Qed.

Lemma update_where_inv data (l : list Intervention) r' :
  r' ∈ prisma.update_where P data <$> l →
  (∃ r, r ∈ l ∧ P r ∧ r' = data r) ∨ (r' ∈ l ∧ ¬ P r').
Proof.
  intros (r & -> & Hin)%list_elem_of_fmap. unfold prisma.update_where.
  case_decide; [left; eauto | right; eauto].
Qed.

End Tables.

Lemma no_fault_split n m w :
  no_fault (n + m) w → no_fault n w ∧ true ∉ take m (drop n (faults w)).
Proof.
  unfold no_fault. rewrite <- take_take_drop, not_elem_of_app. done.
Qed.

(** On a table whose keys fit the SERIAL column, as every table of the
    database does, the keys that are accepted are those of the INT4 range. *)
Lemma key_fits_iff_in_int4 id (l : list Intervention) :
  Forall (λ r, in_int4 (intervention_id r)) l →
  prisma.key_fits id l ↔ in_int4 id.
Proof.
  intros Hl. split; [|by left].
  intros [Hfit | (r & Hin & Hr)%Exists_exists]; [done|].
  rewrite Forall_forall in Hl. rewrite <- Hr. by apply Hl.
Qed.

Lemma key_fits_found id s (l : list Intervention) :
  (∃ r, r ∈ l ∧ where_completion id s r) → prisma.key_fits id l.
Proof.
  intros (r & Hin & Hid & _). right. apply Exists_exists. by exists r.
Qed.

Lemma completion_outcome (studentId : string) (p : Payload) (ws : nat) (id : Z) (w : World) :
  p_interventionId p = Some id → id ≠ 0 → no_fault 1 w →
  prisma.key_fits id (interventions (db w)) →
  let w' := handleRemedialCompletion studentId (Some p) ws w in
  let found := ∃ r, r ∈ interventions (db w) ∧ where_completion id studentId r in
  faults w' = drop 1 (faults w) ∧ now w' = now w ∧
  interventions (db w') =
    prisma.update_where (where_completion id studentId) (complete (now w))
      <$> interventions (db w) ∧
  (found → sockets w' = sockets (ws_send ws (MsgRemedialCompleted id) w)) ∧
  (¬ found →
   sockets w' =
     sockets (ws_send ws (MsgError "Invalid intervention or not assigned") w)).
Proof.
  intros Hp Hid Hnf Hfits w' found. subst w' found.
  destruct w as [conns socks sess [studs logs ivs lseq iseq] fl tm nw].
  unfold handleRemedialCompletion, no_fault in *. cbn in Hnf, Hfits.
  assert (match fl with true :: _ => Thrown | _ => Normal tt end = Normal tt) as Hfl.
  { destruct fl as [|[] fl]; try done. destruct Hnf. cbn. apply list_elem_of_here. }
  exec_db. rewrite Hp. rewrite (decide_False (P := id = 0)) by done.
  exec_db. rewrite (decide_True (P := prisma.key_fits id ivs)) by done. cbn. rewrite Hfl.
  destruct (decide (length (filter (where_completion id studentId) ivs) = 0%nat))
    as [Hc|Hc]; cbn; rewrite no_match_count in Hc; split_and!; done.
Qed.

Lemma completion_unfit (studentId : string) (p : Payload) (ws : nat) (id : Z) (w : World) :
  p_interventionId p = Some id → id ≠ 0 →
  ¬ prisma.key_fits id (interventions (db w)) →
  handleRemedialCompletion studentId (Some p) ws w =
  ws_send ws (MsgError "Failed to mark remedial as completed") w.
Proof.
  intros Hp Hid Hfits. unfold handleRemedialCompletion. exec_db.
  rewrite Hp. rewrite (decide_False (P := id = 0)) by done.
  exec_db. by rewrite (decide_False (P := prisma.key_fits id (interventions (db w)))).
Qed.

Lemma completion_without_key_refused (studentId : string) (p : Payload) (ws : nat) (w : World) :
  p_interventionId p = None ∨ p_interventionId p = Some 0 →
  handleRemedialCompletion studentId (Some p) ws w =
  ws_send ws (MsgError "interventionId is required") w.
Proof.
  intros [Hp|Hp]; unfold handleRemedialCompletion; exec; rewrite Hp; [done|].
  by rewrite decide_True.
Qed.

(** C2 (as the code has it).  A completion report is rejected exactly when
    the caller owns no intervention of that key with a task assigned; whether
    the intervention is already completed plays no part.  The rejection is
    the frame "Invalid intervention or not assigned" for a key that fits the
    INTEGER column, and the frame of a failed call for a key that does not.
    Otherwise the rows that match are marked completed and the confirmation
    goes out on the same socket -- and since a completed row still matches,
    a second report is confirmed like the first. *)
Theorem completion_rejected_iff_no_assigned_intervention_of_caller (studentId : string) (p : Payload) (ws : nat) (id : Z) (w : World) :
  p_interventionId p = Some id → id ≠ 0 → no_fault 2 w →
  let report := handleRemedialCompletion studentId (Some p) ws in
  let found := ∃ r, r ∈ interventions (db w) ∧ where_completion id studentId r in
  let rejected := MsgError "Invalid intervention or not assigned" in
  let failed := MsgError "Failed to mark remedial as completed" in
  (¬ found → in_int4 id →
   sockets (report w) = sockets (ws_send ws rejected w) ∧
   interventions (db (report w)) = interventions (db w)) ∧
  (¬ in_int4 id → (¬ ∃ r, r ∈ interventions (db w) ∧ intervention_id r = id) →
   report w = ws_send ws failed w) ∧
  (found →
   sockets (report w) = sockets (ws_send ws (MsgRemedialCompleted id) w) ∧
   interventions (db (report w)) =
     prisma.update_where (where_completion id studentId) (complete (now w))
       <$> interventions (db w) ∧
   (∀ r, r ∈ interventions (db (report w)) → where_completion id studentId r →
         completed r = true) ∧
   sockets (report (report w)) =
     sockets (ws_send ws (MsgRemedialCompleted id)
                (ws_send ws (MsgRemedialCompleted id) w))).
Proof.
  intros Hp Hid Hnf report found rejected failed. subst report found rejected failed.
  apply (no_fault_split 1 1) in Hnf as [Hnf1 Hnf2].
  split_and!.
  - intros Hn Hfit.
    destruct (completion_outcome studentId p ws id w Hp Hid Hnf1)
      as (Hfl & Hnow & Hrows & Hyes & Hno); [by left|].
    split; [by apply Hno|]. rewrite Hrows. by apply update_where_no_match.
  - intros Hunfit Hnone. apply (completion_unfit studentId p ws id w Hp Hid).
    intros [Hfit | (r & Hin & Hr)%Exists_exists]; [done|]. apply Hnone. by exists r.
  - intros (r & Hin & Hr).
    assert (prisma.key_fits id (interventions (db w))) as Hfits
      by (eapply key_fits_found; eauto).
    destruct (completion_outcome studentId p ws id w Hp Hid Hnf1 Hfits)
      as (Hfl & Hnow & Hrows & Hyes & Hno).
    split_and!.
    + apply Hyes. eauto.
    + done.
    + rewrite Hrows. intros r' Hin' Hr'.
      apply update_where_inv in Hin' as [(r0 & _ & _ & ->) | [_ Hnr]]; done.
    + set (w1 := handleRemedialCompletion studentId (Some p) ws w) in *.
      assert (no_fault 1 w1) as Hnf1' by (unfold no_fault; by rewrite Hfl).
      assert (∃ r', r' ∈ interventions (db w1) ∧ where_completion id studentId r')
        as Hfound'.
      { exists (complete (now w) r). split; [|done]. rewrite Hrows.
        by apply update_where_match. }
      destruct (completion_outcome studentId p ws id w1 Hp Hid Hnf1')
        as (_ & _ & _ & Hyes2 & _); [by eapply key_fits_found|].
      rewrite (Hyes2 Hfound'). cbn. by rewrite (Hyes (ex_intro _ r (conj Hin Hr))).
Qed.

Lemma remedialTasks_rule (quizScore focusMinutes : Z) :
  (quizScore < 7 → focusMinutes < 60 →
   remedialTasks quizScore focusMinutes = combined_remediation) ∧
  (quizScore < 7 → 60 ≤ focusMinutes →
   remedialTasks quizScore focusMinutes = quiz_remediation) ∧
  (7 ≤ quizScore → focusMinutes < 60 →
   remedialTasks quizScore focusMinutes = focus_remediation).
Proof.
  unfold remedialTasks.
  destruct (Z.ltb_spec quizScore 7), (Z.ltb_spec focusMinutes 60);
    split_and!; intros; (done || lia).
Qed.

Lemma approval_outcome (s : string) (id q f : Z) (w : World) :
  no_fault 1 w → (∃ r, r ∈ interventions (db w) ∧ prisma.where_id id r) →
  let tasks := remedialTasks q f in
  let w' := approvalCallback s id q f w in
  faults w' = drop 1 (faults w) ∧ now w' = now w ∧ timers w' = timers w ∧
  connections w' = connections w ∧ dailyLogs (db w') = dailyLogs (db w) ∧
  interventions (db w') =
    prisma.update_where (prisma.where_id id) (assign tasks (now w)) <$> interventions (db w) ∧
  sockets w' = sockets (sendToStudent s (MsgInterventionAssigned id tasks) w).2.
Proof.
  intros Hnf Hex tasks w'. subst tasks w'.
  destruct w as [conns socks sess [studs logs ivs lseq iseq] fl tm nw].
  unfold approvalCallback, no_fault in *. cbn in Hnf, Hex.
  assert (match fl with true :: _ => Thrown | _ => Normal tt end = Normal tt) as Hfl.
  { destruct fl as [|[] fl]; try done. destruct Hnf. cbn. apply list_elem_of_here. }
  exec_db. rewrite Hfl.
  destruct (filter (prisma.where_id id) ivs) as [|r0 l0] eqn:E.
  { destruct Hex as (r & Hin & Hr). by destruct (filter_nil_not_elem_of _ _ r E Hr). }
  cbn. unfold sendToStudent, ws_readyState. cbn.
  destruct (conns !! s) as [sk|]; [|done]. cbn.
  by destruct (decide (match socks !! sk with Some s0 => readyState s0 | None => CLOSED end = OPEN)).
Qed.

Lemma onTimeout_fires (t : Timer) (rest : list Timer) (w : World) :
  timers w = t :: rest →
  onTimeout w =
  approvalCallback (t_studentId t) (t_interventionId t) (t_quizScore t) (t_focusMinutes t)
    (set_now (Z.max (due t)) (set_timers (λ _, rest) w)).
Proof. intros Ht. unfold onTimeout. by rewrite Ht. Qed.

(** C8. [simulateN8nApproval] sets one timer, due the fixed delay after the
    check-in.  When it fires -- no earlier than that -- the task text follows
    from the two scores by the three-way rule (three different texts), every
    row with the key of the intervention becomes assigned with that text, and
    the frame [intervention_assigned] is handed to [sendToStudent]. *)
Theorem simulated_approval_assigns_by_rule_and_attempts_delivery (t : Timer) (rest : list Timer) (w : World) :
  timers w = t :: rest → no_fault 1 w →
  (∃ r, r ∈ interventions (db w) ∧ intervention_id r = t_interventionId t) →
  let id := t_interventionId t in
  let tasks := remedialTasks (t_quizScore t) (t_focusMinutes t) in
  let w' := onTimeout w in
  (∀ s i q f w0,
     timers (simulateN8nApproval s i q f w0).2 =
       timers w0 ++ [mkTimer (now w0 + AUTO_APPROVE_DELAY) s i q f]) ∧
  (∀ q f, (q < 7 → f < 60 → remedialTasks q f = combined_remediation) ∧
          (q < 7 → 60 ≤ f → remedialTasks q f = quiz_remediation) ∧
          (7 ≤ q → f < 60 → remedialTasks q f = focus_remediation)) ∧
  combined_remediation ≠ quiz_remediation ∧
  combined_remediation ≠ focus_remediation ∧
  quiz_remediation ≠ focus_remediation ∧
  due t ≤ now w' ∧ timers w' = rest ∧
  interventions (db w') =
    prisma.update_where (prisma.where_id id) (assign tasks (now w'))
      <$> interventions (db w) ∧
  (∀ r, r ∈ interventions (db w') → intervention_id r = id →
        task_assigned r = true ∧ assigned_tasks r = Some tasks) ∧
  sockets w' =
    sockets (sendToStudent (t_studentId t) (MsgInterventionAssigned id tasks) w).2 ∧
  connections w' = connections w.
Proof.
  intros Ht Hnf Hex. cbv zeta. rewrite (onTimeout_fires _ _ _ Ht).
  set (w0 := set_now (Z.max (due t)) (set_timers (λ _, rest) w)).
  destruct (approval_outcome (t_studentId t) (t_interventionId t)
              (t_quizScore t) (t_focusMinutes t) w0)
    as (_ & Hnow & Htm & Hconn & _ & Hrows & Hsock); [done | done |].
  rewrite Hnow.
  split_and!; try done; try compute_done.
  - apply remedialTasks_rule.
  - cbn. lia.
  - rewrite Hrows. intros r Hin Hr.
    apply update_where_inv in Hin as [(r0 & _ & _ & ->) | [_ Hnr]]; done.
  - rewrite Hsock. unfold sendToStudent, ws_readyState. cbn.
    destruct (connections w !! t_studentId t) as [sk|]; [|done].
    by destruct (decide (match sockets w !! sk with Some s0 => readyState s0 | None => CLOSED end = OPEN)).
Qed.

#[global] Instance newer_first_trans : Transitive prisma.newer_first.
Proof. intros a b c. unfold prisma.newer_first. lia. Qed.

#[global] Instance newer_first_total : Total prisma.newer_first.
Proof. intros a b. unfold prisma.newer_first. lia. Qed.

Lemma sendToStudent_offline s msg w :
  isConnected s w = false → sendToStudent s msg w = (false, w).
Proof.
  unfold isConnected, sendToStudent. destruct (connections w !! s) as [sk|]; [|done].
  intros Hc%bool_decide_eq_false. by rewrite decide_False.
Qed.

Lemma pendingInterventions_outcome s w :
  no_fault 1 w →
  (pendingInterventions s w).1 =
  Normal (prisma.orderBy_createdAt_desc
            (filter (where_pending s) (interventions (db w)))).
Proof.
  intros Hnf. unfold pendingInterventions, no_fault in *. exec_db.
  destruct (faults w) as [|[] fl]; try done. destruct Hnf. apply list_elem_of_here.
Qed.

(** C9. The student is offline when the review fires: [sendToStudent]
    answers [false], no frame reaches any socket and no timer is set again,
    so nothing is queued or retried.  The intervention is stored as assigned
    and not completed, and the pending-interventions query of that student
    then returns it, in a list of that student's assigned, uncompleted
    interventions ordered from the newest to the oldest. *)
Theorem offline_assignment_is_kept_for_the_pull_query (t : Timer) (rest : list Timer) (r : Intervention) (w : World) :
  timers w = t :: rest → no_fault 2 w →
  isConnected (t_studentId t) w = false →
  r ∈ interventions (db w) →
  intervention_id r = t_interventionId t → student_id r = t_studentId t →
  completed r = false →
  let tasks := remedialTasks (t_quizScore t) (t_focusMinutes t) in
  let w' := onTimeout w in
  let r' := assign tasks (now w') r in
  (sendToStudent (t_studentId t)
     (MsgInterventionAssigned (t_interventionId t) tasks) w).1 = false ∧
  sockets w' = sockets w ∧ connections w' = connections w ∧ timers w' = rest ∧
  r' ∈ interventions (db w') ∧ task_assigned r' = true ∧ completed r' = false ∧
  ∃ rows, (pendingInterventions (t_studentId t) w').1 = Normal rows ∧
    r' ∈ rows ∧
    StronglySorted prisma.newer_first rows ∧
    (∀ x, x ∈ rows ↔ x ∈ interventions (db w') ∧ where_pending (t_studentId t) x).
Proof.
  intros Ht Hnf Hoff Hin Hid Hs Hc. cbv zeta.
  apply (no_fault_split 1 1) in Hnf as [Hnf1 Hnf2].
  rewrite (onTimeout_fires _ _ _ Ht).
  set (w0 := set_now (Z.max (due t)) (set_timers (λ _, rest) w)).
  set (tasks := remedialTasks (t_quizScore t) (t_focusMinutes t)).
  destruct (approval_outcome (t_studentId t) (t_interventionId t)
              (t_quizScore t) (t_focusMinutes t) w0)
    as (Hfl & Hnow & Htm & Hconn & _ & Hrows & Hsock); [done | by exists r |].
  fold tasks in Hrows, Hsock.
  set (w' := approvalCallback (t_studentId t) (t_interventionId t)
               (t_quizScore t) (t_focusMinutes t) w0) in *.
  assert (isConnected (t_studentId t) w0 = false) as Hoff0 by done.
  rewrite (sendToStudent_offline _ _ _ Hoff0) in Hsock.
  assert (assign tasks (now w') r ∈ interventions (db w')) as Hin'.
  { rewrite Hrows, Hnow. by apply update_where_match. }
  split_and!; try done.
  - by rewrite sendToStudent_offline.
  - exists (prisma.orderBy_createdAt_desc
              (filter (where_pending (t_studentId t)) (interventions (db w')))).
    assert (∀ x, x ∈ prisma.orderBy_createdAt_desc
                       (filter (where_pending (t_studentId t)) (interventions (db w')))
                 ↔ x ∈ interventions (db w') ∧ where_pending (t_studentId t) x) as Hrows'.
    { intros x. unfold prisma.orderBy_createdAt_desc.
      rewrite merge_sort_Permutation, list_elem_of_filter. tauto. }
    split_and!.
    + apply pendingInterventions_outcome. unfold no_fault. by rewrite Hfl.
    + apply Hrows'. done.
    + apply StronglySorted_merge_sort; apply _.
    + done.
Qed.

(** ** The scenarios of the specification, run *)

(** The end-to-end scenario: S1 connects, checks in with (5, 40), is told the
    review is pending and, once the delay has passed, receives the combined
    remediation on the same socket. *)
Example end_to_end_scenario :
  ws_sent 0 S1_assigned =
  [MsgConnected "S1" true; MsgCheckinPending 1 1;
   MsgInterventionAssigned 1 combined_remediation].
Proof. vm_compute. reflexivity. Qed.

(** A transaction whose commit fails leaves no row behind. *)
Example failed_commit_leaves_no_row :
  let w := handleDailyCheckin "S1" (Some (mkPayload None (Some 5) (Some 40) None)) 0
             (set_faults (λ _, [false; false; true]) S1_connected) in
  dailyLogs (db w) = [] ∧ interventions (db w) = [] ∧ timers w = [] ∧
  ws_sent 0 w = [MsgConnected "S1" true; MsgError "Failed to process daily check-in"].
Proof. vm_compute. done. Qed.

(** A score that does not fit its INTEGER column: nothing is stored, on
    either branch, and the check-in is answered with the failure. *)
Example checkin_with_a_score_out_of_range_stores_nothing :
  let on_track := onMessage example_jwt 0 (daily_checkin 2147483648 60) S1_connected in
  let pending := onMessage example_jwt 0 (daily_checkin (-2147483649) 60) S1_connected in
  db on_track = db S1_connected ∧ db pending = db S1_connected ∧
  timers on_track = [] ∧ timers pending = [] ∧
  ws_sent 0 on_track =
    [MsgConnected "S1" true; MsgError "Failed to process daily check-in"] ∧
  ws_sent 0 pending =
    [MsgConnected "S1" true; MsgError "Failed to process daily check-in"].
Proof. vm_compute. done. Qed.

(** A key that does not fit the SERIAL column: the completion report is
    answered with the failure of the call, the manual approval with 500. *)
Example key_out_of_range_is_a_failed_call :
  ws_sent 0 (onMessage example_jwt 0 (remedial_completed 2147483648) S1_assigned) =
    ws_sent 0 S1_assigned ++ [MsgError "Failed to mark remedial as completed"] ∧
  ws_sent 0 (onMessage example_jwt 0 (remedial_completed 2) S1_assigned) =
    ws_sent 0 S1_assigned ++ [MsgError "Invalid intervention or not assigned"] ∧
  postManualApprove (mkManualApprovalBody (Some 2147483648) None) S1_pending =
    (mkResponse 500 (BodyError "Failed to process manual approval"), S1_pending) ∧
  (postManualApprove (mkManualApprovalBody (Some 2) None) S1_pending).1 =
    mkResponse 404 (BodyError "Intervention not found").
Proof. vm_compute. done. Qed.

(** C1, counterexample.  S1 is bound on socket 0 and then on socket 1; the
    registry holds socket 1.  Socket 0 closes: the entry is gone, although
    socket 1 is open and still the session of S1. *)
Lemma stale_close_removes_the_newer_binding :
  getConnection "S1" S1_bound_twice = Some 1%nat ∧
  ws_readyState 1 (onClose 0 S1_bound_twice) = OPEN ∧
  sessionIds (onClose 0 S1_bound_twice) !! 1%nat = Some "S1" ∧
  getConnection "S1" (onClose 0 S1_bound_twice) = None.
Proof. vm_compute. done. Qed.

(** Two sockets authenticate with the token of S1, then the first closes. *)
Lemma rebind_last_wins_and_stale_close_unbinds_witness :
  example_jwt "token-S1" = Decoded (Some "S1") ∧ "S1" ≠ "" ∧
  getConnection "S1" (onClose 0 S1_bound_twice) = None.
Proof.
  split; [reflexivity|]. split; [done|].
  destruct (rebind_last_wins_and_stale_close_unbinds example_jwt 0 1 "token-S1" "S1"
              two_sockets) as (_ & _ & _ & Hclose & _); [reflexivity | done |].
  exact Hclose.
Defined.

(** C2, counterexample.  The intervention of S1 is completed; S1 reports it
    completed once more and is sent the confirmation again, not an error. *)
Lemma second_completion_report_is_confirmed :
  interventions (db S1_completed) =
    [mkIntervention 1 "S1" true (Some combined_remediation) true 0 5000] ∧
  ws_sent 0 (onMessage example_jwt 0 (remedial_completed 1) S1_completed) =
    ws_sent 0 S1_completed ++ [MsgRemedialCompleted 1].
Proof. vm_compute. done. Qed.

(** S1 reports its assigned intervention as completed, twice. *)
Lemma completion_rejected_iff_no_assigned_intervention_of_caller_witness :
  no_fault 2 S1_assigned ∧
  let report := handleRemedialCompletion "S1" (Some (mkPayload None None None (Some 1))) 0 in
  sockets (report S1_assigned) =
    sockets (ws_send 0 (MsgRemedialCompleted 1) S1_assigned) ∧
  sockets (report (report S1_assigned)) =
    sockets (ws_send 0 (MsgRemedialCompleted 1)
               (ws_send 0 (MsgRemedialCompleted 1) S1_assigned)).
Proof.
  split; [compute_done|].
  destruct (completion_rejected_iff_no_assigned_intervention_of_caller
              "S1" (mkPayload None None None (Some 1)) 0 1 S1_assigned)
    as (_ & _ & Hfound); [reflexivity | done | compute_done |].
  destruct Hfound as (Hsent & _ & _ & Hagain).
  { exists (mkIntervention 1 "S1" true (Some combined_remediation) false 0 5000).
    split; [compute_done | by vm_compute]. }
  cbv zeta. split; [exact Hsent | exact Hagain].
Defined.

(** S1, connected, checks in with (5, 40). *)
Lemma checkin_records_are_created_atomically_witness :
  let w' := handleDailyCheckin "S1" (Some (mkPayload None (Some 5) (Some 40) None)) 0
              S1_connected in
  dailyLogs (db w') = [mkDailyLog 1 "S1" 40 5 "Pending Mentor Review" 0] ∧
  interventions (db w') = [mkIntervention 1 "S1" false None false 0 0] ∧
  timers w' = [mkTimer 5000 "S1" 1 5 40].
Proof.
  pose proof (checkin_records_are_created_atomically
                "S1" (mkPayload None (Some 5) (Some 40) None) 0 5 40 S1_connected
                eq_refl eq_refl) as H.
  cbv zeta in H. change (isOnTrack 5 40) with false in H. cbv iota in H.
  rewrite decide_True in H by (split; compute_done).
  destruct H as (Hlogs & Hrows & _ & Htimers). cbv zeta. split_and!.
  - rewrite Hlogs. by vm_compute.
  - rewrite Hrows. by vm_compute.
  - rewrite Htimers. by vm_compute.
Defined.

(** An expired token is presented on a fresh socket. *)
Lemma invalid_credential_terminates_session_witness :
  example_jwt "token-expired" = JwtThrows JwtExpired ∧
  let w' := onMessage example_jwt 0 (connect "token-expired") two_sockets in
  connections w' = connections two_sockets ∧
  ws_readyState 0 w' = CLOSING ∧
  ws_sent 0 w' = [MsgError "Invalid token"].
Proof.
  split; [reflexivity|].
  destruct (invalid_credential_terminates_session example_jwt 0 "token-expired"
              JwtExpired two_sockets eq_refl) as (_ & _ & Hreg & _ & Hopen & _).
  destruct Hopen as [Hsent Hstate]; [by vm_compute|].
  cbv zeta. split_and!; [exact Hreg | exact Hstate | rewrite Hsent; by vm_compute].
Defined.

(** A check-in and a ping arrive on a socket that has not authenticated. *)
Lemma unauthenticated_or_unknown_message_only_errors_witness :
  truthy (sessionIds two_sockets !! 0%nat) = false ∧
  onMessage example_jwt 0 (daily_checkin 5 40) two_sockets =
    ws_send 0 (MsgError "Not authenticated") two_sockets ∧
  onMessage example_jwt 0 (Some (mkEnvelope (Some "ping") None)) two_sockets =
    ws_send 0 (MsgError "Unknown message type") two_sockets.
Proof.
  split; [by vm_compute|]. split.
  - apply (unauthenticated_or_unknown_message_only_errors example_jwt 0
             (Some "daily_checkin") (Some (mkPayload None (Some 5) (Some 40) None))
             two_sockets); [by vm_compute | by left].
  - by apply (unauthenticated_or_unknown_message_only_errors example_jwt 0
                (Some "ping") None two_sockets).
Defined.

(** The review of the check-in (5, 40) of S1 fires. *)
Lemma simulated_approval_assigns_by_rule_and_attempts_delivery_witness :
  timers S1_pending = [mkTimer 5000 "S1" 1 5 40] ∧ no_fault 1 S1_pending ∧
  timers (onTimeout S1_pending) = [] ∧
  5000 ≤ now (onTimeout S1_pending) ∧
  sockets (onTimeout S1_pending) =
    sockets (sendToStudent "S1" (MsgInterventionAssigned 1 combined_remediation)
               S1_pending).2.
Proof.
  split; [by vm_compute|]. split; [compute_done|].
  destruct (simulated_approval_assigns_by_rule_and_attempts_delivery
              (mkTimer 5000 "S1" 1 5 40) [] S1_pending)
    as (_ & _ & _ & _ & _ & Hdue & Htimers & _ & _ & Hsock & _).
  - by vm_compute.
  - compute_done.
  - exists (mkIntervention 1 "S1" false None false 0 0). split; [compute_done | done].
  - split_and!; [exact Htimers | exact Hdue | exact Hsock].
Defined.

(** The offline scenario: the review of S2 fires after S2 has gone. *)
Lemma offline_assignment_is_kept_for_the_pull_query_witness :
  isConnected "S2" S2_gone = false ∧ no_fault 2 S2_gone ∧
  sockets (onTimeout S2_gone) = sockets S2_gone ∧
  ∃ rows, (pendingInterventions "S2" (onTimeout S2_gone)).1 = Normal rows ∧
    mkIntervention 1 "S2" true (Some combined_remediation) false 0 5000 ∈ rows.
Proof.
  split; [by vm_compute|]. split; [compute_done|].
  destruct (offline_assignment_is_kept_for_the_pull_query
              (mkTimer 5000 "S2" 1 5 40) []
              (mkIntervention 1 "S2" false None false 0 0) S2_gone)
    as (_ & Hsock & _ & _ & _ & _ & _ & rows & Hrows & Hin & _);
    [by vm_compute | compute_done | by vm_compute | compute_done | done | done | done |].
  split; [exact Hsock|]. exists rows. split; [exact Hrows|].
  revert Hin. by vm_compute.
Defined.

(** The session of S1 presents the token of S2, then closes. *)
Lemma reconnect_rebinds_and_leaves_stale_entry_witness :
  sessionIds S1_connected !! 0%nat = Some "S1" ∧
  getConnection "S1" S1_connected = Some 0%nat ∧
  let w' := onMessage example_jwt 0 (connect "token-S2") S1_connected in
  getConnection "S2" w' = Some 0%nat ∧
  getConnection "S2" (onClose 0 w') = None ∧
  getConnection "S1" (onClose 0 w') = Some 0%nat ∧
  ws_readyState 0 (onClose 0 w') = CLOSED.
Proof.
  split; [by vm_compute|]. split; [by vm_compute|].
  destruct (reconnect_rebinds_and_leaves_stale_entry example_jwt 0 "token-S2" "S1" "S2"
              S1_connected)
    as (_ & Hb & _ & _ & Hb' & Ha' & Hclosed);
    [by vm_compute | by vm_compute | reflexivity | done | done |].
  cbv zeta. split_and!; [exact Hb | exact Hb' | exact Ha' | exact Hclosed].
Defined.

(** * The rest of the server *)

(** ** Relations that every step of a computation keeps *)

Section Keeping.

Context (R : relation World) `{!PreOrder R}.

Lemma keeps_ret {A} (a : A) : Keeps R (mret a).
Proof. intros w. reflexivity. Qed.

Lemma keeps_throw {A} : Keeps R (@throw A).
Proof. intros w. reflexivity. Qed.

Lemma keeps_gets {A} (f : World → A) : Keeps R (gets f).
Proof. intros w. reflexivity. Qed.

Lemma keeps_destructure {A} (v : option A) : Keeps R (destructure v).
Proof. destruct v; [apply keeps_ret | apply keeps_throw]. Qed.

Lemma keeps_modify (f : World → World) : (∀ w, R w (f w)) → Keeps R (modify f).
Proof. intros Hf w. apply Hf. Qed.

Lemma keeps_call {A} (f : World → A * World) : (∀ w, R w (f w).2) → Keeps R (call f).
Proof. intros Hf w. apply Hf. Qed.

Lemma keeps_bind {A B} (m : M A) (k : A → M B) :
  Keeps R m → (∀ a, Keeps R (k a)) → Keeps R (m ≫= k).
Proof.
  intros Hm Hk w. specialize (Hm w). unfold mbind, M_bind.
  destruct (m w) as [[a|] w1]; [|done]. cbn in Hm.
  etransitivity; [exact Hm | apply Hk].
Qed.

Lemma keeps_try_catch (body handler : M unit) w :
  Keeps R body → Keeps R handler → R w (try_catch body handler w).
Proof.
  intros Hb Hh. specialize (Hb w). unfold try_catch.
  destruct (body w) as [[[]|] w1]; [done|]. cbn in Hb.
  etransitivity; [exact Hb | apply Hh].
Qed.

Lemma keeps_respond_or (route : M Response) (failure : Response) w :
  Keeps R route → R w (respond_or route failure w).2.
Proof.
  intros Hr. specialize (Hr w). unfold respond_or.
  by destruct (route w) as [[res|] w1].
Qed.

Lemma keeps_transaction {A} (body : M A) :
  (∀ w w', R w w' → R w (set_db (prisma.rollback (db w)) w')) →
  Keeps R db_call → Keeps R body → Keeps R (prisma.transaction body).
Proof.
  intros Hroll Hdb Hb w. unfold prisma.transaction.
  assert (Keeps R (a ← body; db_call;; mret a)) as Hk.
  { apply keeps_bind; [done|]. intros a. apply keeps_bind; [done|].
    intros _. apply keeps_ret. }
  specialize (Hk w). destruct ((a ← body; db_call;; mret a) w) as [[a|] w1]; [done|].
  by apply Hroll.
Qed.

End Keeping.

(** Takes a computation apart along its binds and branches; [leaf] settles
    what a primitive step owes. *)
Ltac keeps_with leaf :=
  repeat match goal with
    | |- PreOrder _ => apply _
    | |- Keeps _ (mret _) => apply keeps_ret
    | |- Keeps _ throw => apply keeps_throw
    | |- Keeps _ (gets _) => apply keeps_gets
    | |- Keeps _ (destructure _) => apply keeps_destructure
    | |- Keeps _ (_ ≫= _) => apply keeps_bind
    | |- Keeps _ (modify _) => apply keeps_modify
    | |- Keeps _ (call _) => apply keeps_call
    | |- Keeps _ (prisma.transaction _) => apply keeps_transaction
    | |- Keeps _ (match ?x with _ => _ end) => destruct x
    | |- Keeps _ (let _ := _ in _) => cbv zeta
    | |- ∀ _, Keeps _ _ => intros ?
    | |- ∀ _ : World, _ => intros; leaf
    | |- Keeps _ db_call => intros ?; leaf
    end.

#[global] Instance unchanged_preorder {A} (f : World → A) : PreOrder (unchanged f).
Proof.
  split; [by intros w | intros w1 w2 w3 H1 H2]. unfold unchanged in *. congruence.
Qed.

(** ** How the message handler dispatches *)

Section Dispatch.

Variable jwt_verify : string → JwtOutcome.

Lemma onMessage_unparsable ws w :
  onMessage jwt_verify ws None w = ws_send ws (MsgError "Invalid message format") w.
Proof. done. Qed.

Lemma onMessage_daily_checkin ws p w :
  onMessage jwt_verify ws (Some (mkEnvelope (Some "daily_checkin") p)) w =
  match sessionIds w !! ws with
  | Some s => if decide (s = "") then ws_send ws (MsgError "Not authenticated") w
              else handleDailyCheckin s p ws w
  | None => ws_send ws (MsgError "Not authenticated") w
  end.
Proof.
  unfold onMessage. exec. decide_all. cbv beta.
  destruct (sessionIds w !! ws) as [s|]; [|done]. by destruct (decide (s = "")).
Qed.

Lemma onMessage_remedial_completed ws p w :
  onMessage jwt_verify ws (Some (mkEnvelope (Some "remedial_completed") p)) w =
  match sessionIds w !! ws with
  | Some s => if decide (s = "") then ws_send ws (MsgError "Not authenticated") w
              else handleRemedialCompletion s p ws w
  | None => ws_send ws (MsgError "Not authenticated") w
  end.
Proof.
  unfold onMessage. exec. decide_all. cbv beta.
  destruct (sessionIds w !! ws) as [s|]; [|done]. by destruct (decide (s = "")).
Qed.

Lemma onMessage_connect ws p w :
  onMessage jwt_verify ws (Some (mkEnvelope (Some "connect") p)) w =
  match p with
  | Some p =>
      let v := verifyToken jwt_verify (token p) in
      if truthy v then
        match v with
        | Some s => ws_send ws (MsgConnected s SIMULATION_MODE)
                      (addConnection s ws (assign_studentId ws v w))
        | None => w
        end
      else ws_close ws (ws_send ws (MsgError "Invalid token") (assign_studentId ws v w))
  | None => ws_send ws (MsgError "Invalid message format") w
  end.
Proof.
  unfold onMessage. exec. decide_all. destruct p as [p|]; [|done]. cbn.
  destruct (verifyToken jwt_verify (token p)) as [s|]; [|done]. cbn.
  destruct (decide (s = "")) as [->|Hs]; [done|]. by rewrite bool_decide_eq_true_2.
Qed.

(** The shapes a message other than connect can take. *)
Lemma onMessage_cases ws t p w :
  t ≠ Some "connect" →
  let w' := onMessage jwt_verify ws (Some (mkEnvelope t p)) w in
  (∃ msg, w' = ws_send ws msg w) ∨
  (∃ s, w' = handleDailyCheckin s p ws w) ∨
  (∃ s, w' = handleRemedialCompletion s p ws w).
Proof.
  intros Ht w'. subst w'.
  destruct (decide (t = Some "daily_checkin")) as [->|Hd].
  { rewrite onMessage_daily_checkin. destruct (sessionIds w !! ws) as [s|]; [|eauto].
    destruct (decide (s = "")); eauto. }
  destruct (decide (t = Some "remedial_completed")) as [->|Hr].
  { rewrite onMessage_remedial_completed. destruct (sessionIds w !! ws) as [s|]; [|eauto].
    destruct (decide (s = "")); eauto. }
  left. eexists. by apply unknown_type_rejected.
Qed.

End Dispatch.

(** ** What leaves the registry alone *)

Ltac leaf_unchanged :=
  unfold unchanged, sendToStudent; cbn; repeat case_match; done.

Section Untouched.

Context {A} (f : World → A).

(** [f] reads a component that the sockets, the database and the fault
    schedule are not part of. *)
Hypothesis f_sockets : ∀ g w, f (set_sockets g w) = f w.
Hypothesis f_db : ∀ g w, f (set_db g w) = f w.
Hypothesis f_faults : ∀ g w, f (set_faults g w) = f w.

Ltac leaf_f :=
  unfold unchanged, db_call, sendToStudent, ws_send, ws_close, prisma.rollback; cbn;
  repeat case_match; cbn; rewrite ?f_sockets, ?f_db, ?f_faults; done.

Lemma handleRemedialCompletion_untouched s p ws w :
  unchanged f w (handleRemedialCompletion s p ws w).
Proof.
  unfold handleRemedialCompletion. apply (keeps_try_catch (unchanged f)).
  - unfold prisma.intervention_updateMany. keeps_with leaf_f.
  - keeps_with leaf_f.
Qed.

Lemma approvalCallback_untouched s id q m w :
  unchanged f w (approvalCallback s id q m w).
Proof.
  unfold approvalCallback. apply (keeps_try_catch (unchanged f)).
  - unfold prisma.intervention_update. keeps_with leaf_f.
  - keeps_with leaf_f.
Qed.

Lemma serve_untouched jwt_verify req w :
  unchanged f w (serve jwt_verify req w).2.
Proof.
  destruct req as [authorization s | b | b]; cbn.
  - unfold getPendingInterventions. destruct (authenticateToken _ _); [|done].
    apply (keeps_respond_or (unchanged f)).
    unfold pendingInterventions, prisma.intervention_findMany. keeps_with leaf_f.
  - apply (keeps_respond_or (unchanged f)).
    unfold prisma.intervention_update. keeps_with leaf_f.
  - apply (keeps_respond_or (unchanged f)).
    unfold intervention_findUnique, prisma.intervention_update. keeps_with leaf_f.
Qed.

Lemma handleDailyCheckin_untouched s p ws w :
  (∀ g w, f (set_timers g w) = f w) →
  unchanged f w (handleDailyCheckin s p ws w).
Proof.
  intros f_timers. unfold handleDailyCheckin. apply (keeps_try_catch (unchanged f)).
  - unfold prisma.dailyLog_create, prisma.intervention_create, simulateN8nApproval.
    keeps_with ltac:(rewrite ?f_timers; leaf_f).
  - keeps_with leaf_f.
Qed.

Lemma onTimeout_untouched w :
  (∀ g w, f (set_timers g w) = f w) → (∀ g w, f (set_now g w) = f w) →
  unchanged f w (onTimeout w).
Proof.
  intros f_timers f_now. unfold onTimeout. destruct (timers w) as [|t rest]; [done|].
  etransitivity; [|apply approvalCallback_untouched].
  unfold unchanged. by rewrite f_now, f_timers.
Qed.

End Untouched.

Lemma onMessage_other_untouched {A} (f : World → A) jwt_verify ws message w :
  (∀ g w, f (set_sockets g w) = f w) → (∀ g w, f (set_db g w) = f w) →
  (∀ g w, f (set_faults g w) = f w) →
  (∀ data, message = Some data → type data ≠ Some "connect") →
  (∀ s p, message = Some (mkEnvelope (Some "daily_checkin") p) →
          sessionIds w !! ws = Some s → s ≠ "" →
          f (handleDailyCheckin s p ws w) = f w) →
  f (onMessage jwt_verify ws message w) = f w.
Proof.
  intros f_sockets f_db f_faults Ht Hcheckin.
  destruct message as [[t p]|]; [|by rewrite onMessage_unparsable; apply f_sockets].
  specialize (Ht _ eq_refl). cbn in Ht.
  destruct (decide (t = Some "daily_checkin")) as [->|Hd].
  { rewrite onMessage_daily_checkin. destruct (sessionIds w !! ws) as [s|] eqn:Hs;
      [|apply f_sockets]. destruct (decide (s = "")); [apply f_sockets|]. by eapply Hcheckin. }
  destruct (decide (t = Some "remedial_completed")) as [->|Hr].
  { rewrite onMessage_remedial_completed. destruct (sessionIds w !! ws) as [s|];
      [|apply f_sockets]. destruct (decide (s = "")); [apply f_sockets|].
    by apply handleRemedialCompletion_untouched. }
  rewrite unknown_type_rejected by done. apply f_sockets.
Qed.

(** X1. Outside of connect messages, closes and new connections, nothing the
    server reacts to changes the registry or the identity a session holds:
    not a check-in, a completion report, a malformed or unknown message, a
    review that fires, or a request to a route. *)
Theorem only_connect_and_close_touch_the_registry (jwt_verify : string → JwtOutcome) (w : World) :
  (∀ ws message,
     (∀ data, message = Some data → type data ≠ Some "connect") →
     connections (onMessage jwt_verify ws message w) = connections w ∧
     sessionIds (onMessage jwt_verify ws message w) = sessionIds w) ∧
  (connections (onTimeout w) = connections w ∧
   sessionIds (onTimeout w) = sessionIds w) ∧
  (∀ req, connections (serve jwt_verify req w).2 = connections w ∧
          sessionIds (serve jwt_verify req w).2 = sessionIds w).
Proof.
  split_and!.
  - intros ws message Ht.
    split; apply onMessage_other_untouched; try done;
      intros; by apply (handleDailyCheckin_untouched _).
  - by apply (onTimeout_untouched connections).
  - by apply (onTimeout_untouched sessionIds).
  - intros req. split; by apply (serve_untouched _).
Qed.

(** ** The history of the tables *)

Lemma evolves_refl r : evolves r r.
Proof. by split_and!. Qed.

Lemma evolves_trans r1 r2 r3 : evolves r1 r2 → evolves r2 r3 → evolves r1 r3.
Proof.
  intros (Hi & Hs & Hc & Ha & Hd) (Hi' & Hs' & Hc' & Ha' & Hd').
  split_and!; [congruence | congruence | congruence | auto | auto].
Qed.

Lemma evolves_assign tasks t r : evolves r (assign tasks t r).
Proof. by split_and!. Qed.

Lemma evolves_complete t r : evolves r (complete t r).
Proof. by split_and!. Qed.

Lemma Forall2_evolves_refl l : Forall2 evolves l l.
Proof. induction l; constructor; [apply evolves_refl | done]. Qed.

#[global] Instance continues_preorder : PreOrder continues.
Proof.
  split.
  - intros w. split_and!; [done | done |].
    exists (interventions (db w)), []. split; [by rewrite app_nil_r|].
    apply Forall2_evolves_refl.
  - intros w1 w2 w3 (Hs & Hl & rows & added & Hi & Hev)
                    (Hs' & Hl' & rows' & added' & Hi' & Hev').
    split_and!; [congruence | by etransitivity |].
    rewrite Hi in Hev'.
    apply Forall2_app_inv_l in Hev' as (rows1 & rows2 & Hev1 & Hev2 & ->).
    exists rows1, (rows2 ++ added'). split; [by rewrite Hi', app_assoc|].
    eapply Forall2_trans; [|exact Hev|exact Hev1].
    intros r1 r2 r3. apply evolves_trans.
Qed.

Lemma continues_same_tables w w' :
  students (db w') = students (db w) → dailyLogs (db w') = dailyLogs (db w) →
  interventions (db w') = interventions (db w) → continues w w'.
Proof.
  intros Hs Hl Hi. split_and!; [done | by rewrite Hl |].
  exists (interventions (db w)), []. split; [by rewrite Hi, app_nil_r|].
  apply Forall2_evolves_refl.
Qed.

Lemma continues_log_added row w :
  continues w (set_db (set_dailyLogs (λ l, l ++ [row])) w).
Proof.
  split_and!; [done | by apply prefix_app_r |].
  exists (interventions (db w)), []. split; [by rewrite app_nil_r|].
  apply Forall2_evolves_refl.
Qed.

Lemma continues_row_added row w :
  continues w (set_db (set_interventions (λ l, l ++ [row])) w).
Proof.
  split_and!; [done | done |].
  exists (interventions (db w)), [row]. split; [done | apply Forall2_evolves_refl].
Qed.

Lemma continues_rows_updated (P : Intervention → Prop) `{∀ r, Decision (P r)} data w :
  (∀ r, evolves r (data r)) →
  continues w (set_db (set_interventions (fmap (prisma.update_where P data))) w).
Proof.
  intros Hdata. split_and!; [done | done |].
  exists (prisma.update_where P data <$> interventions (db w)), [].
  split; [by rewrite app_nil_r|].
  induction (interventions (db w)) as [|r l IH]; constructor; [|done].
  unfold prisma.update_where. case_decide; [apply Hdata | apply evolves_refl].
Qed.

Ltac leaf_continues :=
  unfold db_call, sendToStudent; cbn; repeat case_match;
  first
    [ by apply continues_same_tables
    | apply continues_log_added
    | apply continues_row_added
    | apply continues_rows_updated; intros ?;
      first [apply evolves_assign | apply evolves_complete] ].

Lemma handleDailyCheckin_continues s p ws w :
  continues w (handleDailyCheckin s p ws w).
Proof.
  unfold handleDailyCheckin. apply (keeps_try_catch continues).
  - unfold prisma.dailyLog_create, prisma.intervention_create, simulateN8nApproval.
    keeps_with leaf_continues.
  - keeps_with leaf_continues.
Qed.

Lemma handleRemedialCompletion_continues s p ws w :
  continues w (handleRemedialCompletion s p ws w).
Proof.
  unfold handleRemedialCompletion. apply (keeps_try_catch continues).
  - unfold prisma.intervention_updateMany. keeps_with leaf_continues.
  - keeps_with leaf_continues.
Qed.

Lemma approvalCallback_continues s id q m w :
  continues w (approvalCallback s id q m w).
Proof.
  unfold approvalCallback. apply (keeps_try_catch continues).
  - unfold prisma.intervention_update. keeps_with leaf_continues.
  - keeps_with leaf_continues.
Qed.

Lemma serve_continues jwt_verify req w : continues w (serve jwt_verify req w).2.
Proof.
  destruct req as [authorization s | b | b]; cbn.
  - unfold getPendingInterventions. destruct (authenticateToken _ _); [|reflexivity].
    apply (keeps_respond_or continues).
    unfold pendingInterventions, prisma.intervention_findMany. keeps_with leaf_continues.
  - apply (keeps_respond_or continues).
    unfold prisma.intervention_update. keeps_with leaf_continues.
  - apply (keeps_respond_or continues).
    unfold intervention_findUnique, prisma.intervention_update. keeps_with leaf_continues.
Qed.

Lemma step_continues jwt_verify w e : continues w (step jwt_verify w e).
Proof.
  destruct e as [| ws [[t p]|] | ws |]; cbn.
  - by apply continues_same_tables.
  - destruct (decide (t = Some "connect")) as [->|Ht].
    + rewrite onMessage_connect. destruct p as [p|]; [|by apply continues_same_tables].
      cbv zeta. repeat case_match; by apply continues_same_tables.
    + destruct (onMessage_cases jwt_verify ws t p w Ht) as [[msg ->] | [[s ->] | [s ->]]].
      * by apply continues_same_tables.
      * apply handleDailyCheckin_continues.
      * apply handleRemedialCompletion_continues.
  - by apply continues_same_tables.
  - unfold onClose. cbn. repeat case_match; by apply continues_same_tables.
  - unfold onTimeout. destruct (timers w) as [|t rest]; [reflexivity|].
    etransitivity; [|apply approvalCallback_continues]. by apply continues_same_tables.
Qed.

(** X2. Whatever the server is fed -- socket events, timers, requests, failing
    database calls -- every daily log stays in the table as it was written,
    and every intervention stays in the table with its key, owner and
    creation time, and never goes back from assigned to unassigned or from
    completed to uncompleted. *)
Theorem records_are_never_deleted_or_rewound (jwt_verify : string → JwtOutcome) (inputs : list Input) (w : World) :
  continues w (reactAll jwt_verify inputs w).
Proof.
  revert w. induction inputs as [|i inputs IH]; intros w; [reflexivity|].
  unfold reactAll in *. cbn. etransitivity; [|apply IH].
  destruct i as [e|req]; [apply step_continues | apply serve_continues].
Qed.

(** ** Who gets bound *)

Lemma verifyToken_Some jwt_verify tok s :
  verifyToken jwt_verify tok = Some s →
  ∃ token, tok = Some token ∧ jwt_verify token = Decoded (Some s).
Proof.
  unfold verifyToken. destruct tok as [token|]; [|done].
  destruct (jwt_verify token) as [[s'|]|] eqn:E; try done. intros [= ->]. eauto.
Qed.

Lemma step_connections jwt_verify w e s ws :
  connections (step jwt_verify w e) !! s = Some ws →
  connections w !! s = Some ws ∨
  (s ≠ "" ∧ ∃ token, jwt_verify token = Decoded (Some s)).
Proof.
  destruct e as [| ws' [[t p]|] | ws' |]; cbn.
  - auto.
  - destruct (decide (t = Some "connect")) as [->|Ht].
    + rewrite onMessage_connect. destruct p as [p|]; [|auto]. cbv zeta.
      destruct (verifyToken jwt_verify (token p)) as [s'|] eqn:Hv; cbn; [|auto].
      case_bool_decide as Hs'; cbn; [|auto].
      destruct (decide (s' = s)) as [->|Hne].
      * intros _. right. split; [done|].
        apply verifyToken_Some in Hv as (token & _ & Hv). eauto.
      * rewrite lookup_insert_ne by done. auto.
    + rewrite (onMessage_other_untouched connections); try done; [auto | |].
      * by intros data [= <-].
      * intros. by apply (handleDailyCheckin_untouched _).
  - auto.
  - rewrite onClose_connections. destruct (sessionIds w !! ws') as [s'|]; [|auto].
    destruct (decide (s' = "")); [auto|]. intros H%lookup_delete_Some. left. tauto.
  - rewrite (onTimeout_untouched connections) by done. auto.
Qed.

(** X3. The registry only ever binds identities that a token verifies to, and
    never the empty identity: if that holds of a state, it holds of every
    state the server reaches from it. *)
Theorem only_verified_identities_are_bound (jwt_verify : string → JwtOutcome) (inputs : list Input) (w : World) :
  bound_are_verified jwt_verify w →
  bound_are_verified jwt_verify (reactAll jwt_verify inputs w).
Proof.
  revert w. induction inputs as [|i inputs IH]; intros w Hw; [done|].
  unfold reactAll in *. cbn. apply IH. intros s ws Hs.
  destruct i as [e|req]; cbn in Hs.
  - apply step_connections in Hs as [Hs|Hs]; [by eapply Hw | done].
  - rewrite (serve_untouched connections) in Hs by done. by eapply Hw.
Qed.

(** ** What the pending timers stand for *)

Lemma continues_backing w w' id s :
  continues w w' →
  (∃ r, r ∈ interventions (db w) ∧ intervention_id r = id ∧ student_id r = s) →
  ∃ r, r ∈ interventions (db w') ∧ intervention_id r = id ∧ student_id r = s.
Proof.
  intros (_ & _ & rows & added & Hi & Hev) (r & Hin & Hid & Hs).
  apply list_elem_of_lookup in Hin as [i Hi'].
  destruct (Forall2_lookup_l _ _ _ _ _ Hev Hi') as (r' & Hr' & Hi'' & Hs' & _).
  exists r'. split_and!; [|congruence|congruence].
  rewrite Hi. apply elem_of_app. left. by eapply list_elem_of_lookup_2.
Qed.

(** A check-in sets no timer, or one timer for the intervention it has just
    stored. *)
Lemma handleDailyCheckin_timers s p ws w :
  let w' := handleDailyCheckin s p ws w in
  timers w' = timers w ∨
  ∃ q m row,
    timers w' = timers w ++ [mkTimer (now w + AUTO_APPROVE_DELAY) s (intervention_id row) q m] ∧
    isOnTrack q m = false ∧
    row ∈ interventions (db w') ∧ student_id row = s.
Proof.
  cbv zeta. destruct p as [p|]; [|left; unfold handleDailyCheckin; by exec].
  destruct (p_quizScore p) as [q|] eqn:Hq;
    [|left; by rewrite checkin_without_scores_refused by auto].
  destruct (p_focusMinutes p) as [m|] eqn:Hm;
    [|left; by rewrite checkin_without_scores_refused by auto].
  destruct w as [conns socks sess [studs logs ivs lseq iseq] fl tm nw].
  unfold handleDailyCheckin, derivedStatus.
  destruct (decide (in_int4 m ∧ in_int4 q)) as [Hfit|Hfit]; cycle 1.
  { left. destruct (isOnTrack q m) eqn:Hon; exec_db; rewrite Hq, Hm, Hon; exec_db;
      by rewrite (decide_False (P := in_int4 m ∧ in_int4 q)). }
  destruct (isOnTrack q m) eqn:Hon.
  - left. destruct (decide (s ∈ studs)) as [Hin|Hin];
      destruct fl as [|[] fl]; exec_db; rewrite Hq, Hm, Hon; exec_db;
      rewrite (decide_True (P := in_int4 m ∧ in_int4 q)) by done; cbn;
      rewrite ?(bool_decide_eq_true_2 _ Hin), ?(bool_decide_eq_false_2 _ Hin); done.
  - destruct (decide (s ∈ studs)) as [Hin|Hin];
      destruct fl as [|[] [|[] [|[] fl]]]; exec_db; rewrite Hq, Hm, Hon; exec_db;
      rewrite (decide_True (P := in_int4 m ∧ in_int4 q)) by done; cbn;
      rewrite ?(bool_decide_eq_true_2 _ Hin), ?(bool_decide_eq_false_2 _ Hin); cbn;
      try (by left);
      right; exists q, m, (mkIntervention iseq s false None false nw nw);
      (split_and!; [done | done | apply elem_of_app; right; apply list_elem_of_here | done]).
Qed.

Lemma react_timers_backed jwt_verify w i :
  timers_backed w → timers_backed (react jwt_verify w i).
Proof.
  intros Hw.
  assert (∀ w', continues w w' → (∀ t, t ∈ timers w' → t ∈ timers w) → timers_backed w')
    as Hquiet.
  { intros w' Hc Hsub t Ht. destruct (Hw t (Hsub t Ht)) as [Hon Hr].
    split; [done|]. by eapply continues_backing. }
  destruct i as [e|req]; cbn.
  - pose proof (step_continues jwt_verify w e) as Hc.
    destruct e as [| ws [[t p]|] | ws |]; cbn in *.
    + by apply Hquiet.
    + destruct (decide (t = Some "daily_checkin")) as [->|Hd].
      * rewrite onMessage_daily_checkin in *.
        destruct (sessionIds w !! ws) as [s|]; [|by apply Hquiet].
        destruct (decide (s = "")); [by apply Hquiet|].
        destruct (handleDailyCheckin_timers s p ws w)
          as [Heq | (q & m & row & Heq & Hon & Hrow & Hs)].
        { apply Hquiet; [done|]. by rewrite Heq. }
        intros t. rewrite Heq, elem_of_app, list_elem_of_singleton.
        intros [Ht | ->]; [|cbn; eauto].
        destruct (Hw t Ht) as [Hon' Hr]. split; [done|]. by eapply continues_backing.
      * apply Hquiet; [done|]. intros t0.
        destruct (decide (t = Some "connect")) as [->|Hc'].
        { rewrite onMessage_connect. destruct p as [p|]; [|done]. cbv zeta.
          by repeat case_match. }
        rewrite (onMessage_other_untouched timers); try done.
        { by intros data [= <-]. }
        { by intros s p' [= ->]. }
    + by apply Hquiet.
    + apply Hquiet; [done|]. unfold onClose. cbn. by repeat case_match.
    + apply Hquiet; [done|]. unfold onTimeout.
      destruct (timers w) as [|t rest] eqn:E; [by rewrite E|].
      rewrite (approvalCallback_untouched timers) by done. cbn.
      intros t0 Ht0. by apply list_elem_of_further.
  - apply Hquiet; [apply serve_continues|]. by rewrite (serve_untouched timers).
Qed.

(** X4. Every pending review timer belongs to a check-in that was below the
    thresholds, and its intervention is in the table, owned by the student
    the timer names: if that holds of a state (as it does when no timer is
    pending), it holds of every state the server reaches from it. *)
Theorem pending_timers_are_backed_by_an_intervention (jwt_verify : string → JwtOutcome) (inputs : list Input) (w : World) :
  timers_backed w → timers_backed (reactAll jwt_verify inputs w).
Proof.
  revert w. induction inputs as [|i inputs IH]; intros w Hw; [done|].
  unfold reactAll in *. cbn. by apply IH, react_timers_backed.
Qed.

(** X5. In a state the server has reached from one without pending timers,
    the review that fires finds its intervention: unless the database call
    fails, the table then holds that intervention, of the student the timer
    names, assigned with the text the rule gives for scores of which at least
    one is below its threshold. *)
Theorem a_review_that_fires_finds_its_intervention (jwt_verify : string → JwtOutcome) (inputs : list Input) (w0 : World) (t : Timer) (rest : list Timer) :
  timers w0 = [] →
  let w := reactAll jwt_verify inputs w0 in
  timers w = t :: rest → no_fault 1 w →
  (t_quizScore t < 7 ∨ t_focusMinutes t < 60) ∧
  ∃ r, r ∈ interventions (db (onTimeout w)) ∧
       intervention_id r = t_interventionId t ∧ student_id r = t_studentId t ∧
       task_assigned r = true ∧
       assigned_tasks r = Some (remedialTasks (t_quizScore t) (t_focusMinutes t)).
Proof.
  intros Hw0 w Ht Hnf.
  assert (timers_backed w) as Hw.
  { subst w. clear Ht Hnf. revert w0 Hw0.
    induction inputs as [|i inputs IH] using rev_ind; intros w0 Hw0.
    - intros t'. cbn. rewrite Hw0. by intros ?%elem_of_nil.
    - unfold reactAll in *. rewrite foldl_app. cbn. by apply react_timers_backed, IH. }
  destruct (Hw t) as (Hon & r & Hin & Hid & Hs); [rewrite Ht; apply list_elem_of_here|].
  split.
  { unfold isOnTrack in Hon. apply andb_false_iff in Hon as [Hon|Hon];
      apply Z.leb_gt in Hon; auto. }
  rewrite (onTimeout_fires _ _ _ Ht).
  set (w1 := set_now (Z.max (due t)) (set_timers (λ _, rest) w)).
  destruct (approval_outcome (t_studentId t) (t_interventionId t)
              (t_quizScore t) (t_focusMinutes t) w1)
    as (_ & _ & _ & _ & _ & Hrows & _); [done | by exists r |].
  exists (assign (remedialTasks (t_quizScore t) (t_focusMinutes t)) (now w1) r).
  split_and!; try done. rewrite Hrows. by apply update_where_match.
Qed.

(** ** More on the registry *)

Lemma isConnected_sendToStudent s msg w : (sendToStudent s msg w).1 = isConnected s w.
Proof.
  unfold sendToStudent, isConnected. destruct (connections w !! s) as [ws|]; [|done].
  by case_bool_decide; [rewrite decide_True | rewrite decide_False].
Qed.

(** X6. The registry never hands a frame to a socket that is not open:
    [sendToStudent] delivers exactly when [isConnected] holds, and once a
    socket has closed every identity still bound to it -- stale entries
    included -- is reported as not connected and is sent nothing. *)
Theorem stale_entries_are_never_written_to (s : string) (msg : ServerMsg) (ws : nat) (w : World) :
  (sendToStudent s msg w).1 = isConnected s w ∧
  (getConnection s (onClose ws w) = Some ws →
   isConnected s (onClose ws w) = false ∧
   sendToStudent s msg (onClose ws w) = (false, onClose ws w)).
Proof.
  split; [apply isConnected_sendToStudent|]. intros Hs.
  assert (isConnected s (onClose ws w) = false) as Hc.
  { unfold isConnected. unfold getConnection in Hs. rewrite Hs.
    apply bool_decide_eq_false. by rewrite onClose_readyState. }
  split; [done|]. by apply sendToStudent_offline.
Qed.

(** X7. Binding an identity that was not bound and unbinding it again gives
    the registry back as it was; unbinding an identity that is not bound
    changes nothing, so unbinding twice is unbinding once. *)
Theorem bind_then_unbind_restores_the_registry (s : string) (ws : nat) (w : World) :
  getConnection s w = None →
  connections (removeConnection s (addConnection s ws w)) = connections w ∧
  connections (removeConnection s w) = connections w ∧
  removeConnection s (removeConnection s w) = removeConnection s w.
Proof.
  unfold getConnection, removeConnection, addConnection, set_connections. cbn.
  intros Hs. split_and!.
  - rewrite delete_insert_eq. by apply delete_id.
  - by apply delete_id.
  - f_equal. apply delete_id, lookup_delete_eq.
Qed.

(** ** More on the session protocol *)

Section SessionEdges.

Variable jwt_verify : string → JwtOutcome.

(** X8. A frame that cannot be parsed and a connect message without payload
    are answered with the format error and nothing else: the session keeps
    the identity it has, the registry its bindings, the socket its state. *)
Theorem malformed_frames_keep_the_session (ws : nat) (message : option Envelope) (w : World) :
  message = None ∨ message = Some (mkEnvelope (Some "connect") None) →
  let w' := onMessage jwt_verify ws message w in
  w' = ws_send ws (MsgError "Invalid message format") w ∧
  sessionIds w' = sessionIds w ∧ connections w' = connections w ∧
  ws_readyState ws w' = ws_readyState ws w ∧ db w' = db w ∧ timers w' = timers w.
Proof.
  intros Hm w'.
  assert (w' = ws_send ws (MsgError "Invalid message format") w) as ->.
  { subst w'. destruct Hm as [-> | ->]; [done | by rewrite onMessage_connect]. }
  split_and!; try done. apply ws_readyState_ws_send.
Qed.

(** X9. A token with a good signature but without a [studentId], or with an
    empty one, is refused like a bad token: the error frame, the socket
    closed, nothing bound, the session left without an identity. *)
Theorem token_without_identity_is_refused (ws : nat) (tok : string) (w : World) :
  jwt_verify tok = Decoded None ∨ jwt_verify tok = Decoded (Some "") →
  let w' := onMessage jwt_verify ws (connect tok) w in
  w' = ws_close ws (ws_send ws (MsgError "Invalid token")
                      (assign_studentId ws (verifyToken jwt_verify (Some tok)) w)) ∧
  connections w' = connections w ∧
  truthy (sessionIds w' !! ws) = false ∧
  (ws_readyState ws w = OPEN → ws_readyState ws w' = CLOSING) ∧
  connections (onClose ws w') = connections w.
Proof.
  intros Hv w'.
  assert (verifyToken jwt_verify (Some tok) = None ∨
          verifyToken jwt_verify (Some tok) = Some "") as Hv'.
  { unfold verifyToken. destruct Hv as [-> | ->]; auto. }
  assert (truthy (verifyToken jwt_verify (Some tok)) = false) as Hf.
  { by destruct Hv' as [-> | ->]. }
  subst w'. unfold connect. rewrite (connect_rejected jwt_verify ws (Some tok)) by done.
  split_and!; try done.
  - destruct Hv' as [-> | ->]; cbn; [by rewrite lookup_delete_eq | by rewrite lookup_insert_eq].
  - intros Ho. unfold ws_readyState in *. cbn. rewrite !lookup_alter_eq.
    destruct (sockets w !! ws) as [sk|]; [|done]. cbn in *. by rewrite Ho.
  - rewrite onClose_connections.
    destruct Hv' as [-> | ->]; cbn; [by rewrite lookup_delete_eq | by rewrite lookup_insert_eq].
Qed.

(** X10. A connect message that is refused on a session already authenticated
    as [a] takes the identity away from the session: what it sends next is
    answered as not authenticated.  The registry still binds [a] to the
    socket, which is closing, so [a] counts as not connected; and since the
    close handler no longer knows [a], the binding outlives the socket. *)
Theorem refused_reconnect_deauthenticates_but_stays_bound (ws : nat) (p : Payload) (a : string) (w : World) :
  sessionIds w !! ws = Some a → getConnection a w = Some ws →
  ws_readyState ws w = OPEN →
  truthy (verifyToken jwt_verify (token p)) = false →
  let w' := onMessage jwt_verify ws (Some (mkEnvelope (Some "connect") (Some p))) w in
  truthy (sessionIds w' !! ws) = false ∧
  (∀ q m, onMessage jwt_verify ws (daily_checkin q m) w' =
          ws_send ws (MsgError "Not authenticated") w') ∧
  (∀ id, onMessage jwt_verify ws (remedial_completed id) w' =
         ws_send ws (MsgError "Not authenticated") w') ∧
  getConnection a w' = Some ws ∧ isConnected a w' = false ∧
  getConnection a (onClose ws w') = Some ws.
Proof.
  intros Hs Ha Ho Hf w'. subst w'.
  rewrite (connect_rejected jwt_verify ws (token p)) by done.
  set (w' := ws_close ws _).
  assert (truthy (sessionIds w' !! ws) = false) as Hs'.
  { subst w'. cbn. destruct (verifyToken jwt_verify (token p)) as [s|] eqn:Hv.
    - by rewrite lookup_insert_eq.
    - by rewrite lookup_delete_eq. }
  split_and!.
  - done.
  - intros q m. apply unauthenticated_rejected; auto.
  - intros id. apply unauthenticated_rejected; auto.
  - done.
  - unfold isConnected. change (connections w' !! a) with (getConnection a w). rewrite Ha.
    apply bool_decide_eq_false. subst w'. unfold ws_readyState in *. cbn.
    rewrite !lookup_alter_eq. destruct (sockets w !! ws) as [sk|]; [|done].
    cbn in *. by rewrite Ho.
  - unfold getConnection. rewrite onClose_connections.
    destruct (sessionIds w' !! ws) as [s|] eqn:E; [|done].
    cbn in Hs'. apply bool_decide_eq_false in Hs'.
    destruct (decide (s = "")); [done | by destruct Hs'].
Qed.

(** X11. On an authenticated session a check-in without payload, or with one
    of the two scores missing, is answered with one error frame; no row is
    written, no review scheduled, the session stays as it is. *)
Theorem incomplete_checkin_only_errors (ws : nat) (s : string) (p : option Payload) (w : World) :
  sessionIds w !! ws = Some s → s ≠ "" →
  (∀ p', p = Some p' → p_quizScore p' = None ∨ p_focusMinutes p' = None) →
  let w' := onMessage jwt_verify ws (Some (mkEnvelope (Some "daily_checkin") p)) w in
  (∃ error, w' = ws_send ws (MsgError error) w) ∧
  db w' = db w ∧ timers w' = timers w ∧ faults w' = faults w ∧
  sessionIds w' = sessionIds w ∧ ws_readyState ws w' = ws_readyState ws w.
Proof.
  intros Hs Hne Hp w'.
  assert (∃ error, w' = ws_send ws (MsgError error) w) as [error ->].
  { subst w'. rewrite onMessage_daily_checkin, Hs, decide_False by done.
    destruct p as [p'|].
    - rewrite checkin_without_scores_refused by auto. eauto.
    - eexists. unfold handleDailyCheckin. by exec. }
  split_and!; try done; [eauto | apply ws_readyState_ws_send].
Qed.

End SessionEdges.

(** ** The routes *)

Lemma split_space_cons (a b : string) :
  space ∉ String.list_ascii_of_string a →
  split_space (a +:+ String space b) = a :: split_space b.
Proof.
  induction a as [|c a IH]; intros Ha.
  - change ("" +:+ String space b) with (String space b). cbn. by rewrite decide_True.
  - change (String c a +:+ String space b) with (String c (a +:+ String space b)).
    cbn in *. apply not_elem_of_cons in Ha as [Hc Ha].
    rewrite decide_False by done. by rewrite IH.
Qed.

Lemma split_space_whole (a : string) :
  space ∉ String.list_ascii_of_string a → split_space a = [a].
Proof.
  induction a as [|c a IH]; cbn; intros Ha; [done|].
  apply not_elem_of_cons in Ha as [Hc Ha].
  rewrite decide_False by done. by rewrite IH.
Qed.

Section RouteProperties.

Variable jwt_verify : string → JwtOutcome.

Lemma bearerToken_second_word (scheme tok : string) :
  space ∉ String.list_ascii_of_string scheme → space ∉ String.list_ascii_of_string tok →
  bearerToken (Some (scheme +:+ " " +:+ tok)) = Some tok.
Proof.
  intros Hs Ht. unfold bearerToken.
  rewrite decide_False by (by destruct scheme).
  change (" " +:+ tok) with (String space tok).
  by rewrite split_space_cons, split_space_whole.
Qed.

(** X12. [authenticateToken] takes as the token what stands between the first
    and the second space of the authorization header, whatever word comes
    first.  Without header, without a space in it, or with two spaces in a
    row after the first word, it answers 401; a token that [jwt.verify]
    refuses gets 403; any other token lets the request through. *)
Theorem the_token_is_the_second_word_of_the_header (scheme tok rest : string) :
  space ∉ String.list_ascii_of_string scheme → space ∉ String.list_ascii_of_string tok →
  let unauthorized := Respond (mkResponse 401 (BodyError "Access token required")) in
  let verdict :=
    if decide (tok = "") then unauthorized
    else match jwt_verify tok with
         | Decoded user => Next user
         | JwtThrows _ => Respond (mkResponse 403 (BodyError "Invalid or expired token"))
         end in
  authenticateToken jwt_verify None = unauthorized ∧
  authenticateToken jwt_verify (Some scheme) = unauthorized ∧
  authenticateToken jwt_verify (Some (scheme +:+ " " +:+ tok)) = verdict ∧
  authenticateToken jwt_verify (Some (scheme +:+ " " +:+ tok +:+ " " +:+ rest)) = verdict ∧
  authenticateToken jwt_verify (Some (scheme +:+ "  " +:+ rest)) = unauthorized.
Proof.
  intros Hs Ht. cbv zeta. unfold authenticateToken. split_and!.
  - done.
  - unfold bearerToken. destruct (decide (scheme = "")) as [->|Hne]; [done|].
    by rewrite split_space_whole.
  - by rewrite bearerToken_second_word.
  - unfold bearerToken. rewrite decide_False by (by destruct scheme).
    change (" " +:+ tok +:+ " " +:+ rest) with (String space (tok +:+ String space rest)).
    by rewrite !split_space_cons.
  - unfold bearerToken. rewrite decide_False by (by destruct scheme).
    change ("  " +:+ rest) with (String space (EmptyString +:+ String space rest)).
    rewrite !split_space_cons; [done | | done]. cbn. apply not_elem_of_nil.
Qed.

(** X13. The pending-interventions route checks that the token is valid, not
    whose it is: with the token of any identity, or of none, it answers 200
    with the assigned, uncompleted interventions of the student named in the
    path, newest first, and changes no table and no socket.  With a refused
    token it answers 403 and does not reach the database. *)
Theorem any_valid_token_reads_any_students_pending_list (tok studentId : string) (w : World) :
  space ∉ String.list_ascii_of_string tok → tok ≠ "" →
  let answer := getPendingInterventions jwt_verify (Some ("Bearer " +:+ tok)) studentId w in
  (∀ user, jwt_verify tok = Decoded user → no_fault 1 w →
     answer.1 = mkResponse 200
                  (BodyPending studentId
                     (prisma.orderBy_createdAt_desc
                        (filter (where_pending studentId) (interventions (db w))))) ∧
     db answer.2 = db w ∧ sockets answer.2 = sockets w ∧
     connections answer.2 = connections w) ∧
  (∀ e, jwt_verify tok = JwtThrows e →
     answer = (mkResponse 403 (BodyError "Invalid or expired token"), w)).
Proof.
  intros Ht Hne. cbv zeta. unfold getPendingInterventions.
  unfold authenticateToken.
  change ("Bearer " +:+ tok) with ("Bearer" +:+ " " +:+ tok).
  rewrite (bearerToken_second_word "Bearer" tok) by (done || compute_done).
  rewrite decide_False by done. split.
  - intros user -> Hnf. unfold no_fault in Hnf.
    unfold respond_or, pendingInterventions. exec_db.
    destruct (faults w) as [|[] fl]; try done. destruct Hnf. apply list_elem_of_here.
  - by intros e ->.
Qed.

End RouteProperties.

(** Unfolds a route down to its answer and the state it leaves. *)
Ltac exec_route :=
  unfold postInterventionApprove, postManualApprove, respond_or, intervention_findUnique;
  cbn [a_studentId a_interventionId a_assignedTasks m_interventionId m_assignedTasks].

Lemma filter_where_id_nil id (l : list Intervention) :
  (¬ ∃ r, r ∈ l ∧ intervention_id r = id) → filter (prisma.where_id id) l = [].
Proof.
  intros Hn. destruct (filter (prisma.where_id id) l) as [|r l'] eqn:E; [done|].
  assert (r ∈ filter (prisma.where_id id) l) as Hr by (rewrite E; apply list_elem_of_here).
  apply list_elem_of_filter in Hr as [Hid Hin]. destruct Hn. by exists r.
Qed.

Lemma filter_where_id_cons id (l : list Intervention) r :
  r ∈ l → intervention_id r = id → ∃ r0 l0, filter (prisma.where_id id) l = r0 :: l0.
Proof.
  intros Hin Hid. destruct (filter (prisma.where_id id) l) as [|r0 l0] eqn:E; [|eauto].
  by destruct (filter_nil_not_elem_of _ _ r E Hid).
Qed.

Lemma sendToStudent_sockets s msg w w' :
  connections w' = connections w → sockets w' = sockets w →
  (sendToStudent s msg w').1 = isConnected s w ∧
  sockets (sendToStudent s msg w').2 = sockets (sendToStudent s msg w).2.
Proof.
  intros Hc Hs. unfold sendToStudent, isConnected, ws_readyState, ws_send. rewrite Hc, Hs.
  destruct (connections w !! s) as [sk|]; [|done].
  case_bool_decide; [rewrite !decide_True by done | rewrite !decide_False by done];
    cbn; by rewrite ?Hs.
Qed.

(** X14. [POST /intervention/approve] with a field missing, empty or zero
    answers 400 and changes nothing.  With all fields present, when no
    intervention has the key or the database call fails, it answers 500: no
    student is notified and no row is changed. *)
Theorem approval_that_cannot_be_recorded_notifies_nobody (b : ApprovalBody) (w : World) :
  let answer := postInterventionApprove b w in
  (a_studentId b = None ∨ a_studentId b = Some "" ∨
   a_interventionId b = None ∨ a_interventionId b = Some 0 ∨
   a_assignedTasks b = None ∨ a_assignedTasks b = Some "" →
   answer = (mkResponse 400 (BodyError "Missing required fields"), w)) ∧
  (∀ s id tasks,
     a_studentId b = Some s → a_interventionId b = Some id →
     a_assignedTasks b = Some tasks → s ≠ "" → id ≠ 0 → tasks ≠ "" →
     ¬ no_fault 1 w ∨ (¬ ∃ r, r ∈ interventions (db w) ∧ intervention_id r = id) →
     answer.1 = mkResponse 500 (BodyError "Failed to process intervention approval") ∧
     sockets answer.2 = sockets w ∧ db answer.2 = db w ∧ timers answer.2 = timers w).
Proof.
  cbv zeta. split.
  - intros H. unfold postInterventionApprove, respond_or.
    destruct (a_studentId b) as [s|], (a_interventionId b) as [id|],
      (a_assignedTasks b) as [tasks|]; try done.
    rewrite decide_True; [done|].
    destruct H as [?|[?|[?|[?|[?|?]]]]]; simplify_eq; auto.
  - intros s id tasks Hs Hid Htasks Hs' Hid' Htasks' Hfail.
    destruct w as [conns socks sess [studs logs ivs lseq iseq] fl tm nw].
    unfold no_fault in Hfail. cbn in Hfail.
    exec_route. rewrite Hs, Hid, Htasks.
    rewrite decide_False by (intros [?|[?|?]]; done). exec_db.
    destruct fl as [|[] fl]; try done;
      destruct Hfail as [Hfail|Hfail]; try (destruct Hfail; cbn; compute_done);
      by rewrite (filter_where_id_nil _ _ Hfail).
Qed.

(** X15. [POST /intervention/approve] with all fields present, for an
    intervention that exists: every row with the key becomes assigned with
    the tasks of the request and 200 is answered -- whatever the [approved]
    field says.  The frame goes to the student named in the request, who need
    not be the owner of the intervention, and [offline] tells whether that
    student was connected. *)
Theorem approval_notifies_the_student_named_in_the_request (s tasks : string) (id : Z) (approved : option bool) (r : Intervention) (w : World) :
  s ≠ "" → id ≠ 0 → tasks ≠ "" → no_fault 1 w →
  r ∈ interventions (db w) → intervention_id r = id →
  let answer :=
    postInterventionApprove (mkApprovalBody (Some s) (Some id) (Some tasks) approved) w in
  statusCode answer.1 = 200%nat ∧
  (∃ updated, body answer.1 = BodyApproved (negb (isConnected s w)) updated ∧
              intervention_id updated = id ∧ task_assigned updated = true ∧
              assigned_tasks updated = Some tasks) ∧
  interventions (db answer.2) =
    prisma.update_where (prisma.where_id id) (assign tasks (now w))
      <$> interventions (db w) ∧
  assign tasks (now w) r ∈ interventions (db answer.2) ∧
  sockets answer.2 = sockets (sendToStudent s (MsgInterventionAssigned id tasks) w).2.
Proof.
  intros Hs Hid Htasks Hnf Hin Hr. cbv zeta.
  destruct (filter_where_id_cons _ _ _ Hin Hr) as (r0 & l0 & Hf).
  assert (intervention_id r0 = id) as Hr0.
  { assert (r0 ∈ filter (prisma.where_id id) (interventions (db w))) as H0
      by (rewrite Hf; apply list_elem_of_here).
    by apply list_elem_of_filter in H0 as [H0 _]. }
  destruct w as [conns socks sess [studs logs ivs lseq iseq] fl tm nw].
  unfold no_fault in Hnf. cbn in Hnf, Hin, Hf.
  assert (match fl with true :: _ => Thrown | _ => Normal tt end = Normal tt) as Hfl.
  { destruct fl as [|[] fl]; try done. destruct Hnf. cbn. apply list_elem_of_here. }
  exec_route. rewrite decide_False by (intros [?|[?|?]]; done). exec_db.
  rewrite Hfl, Hf. cbn.
  set (w0 := mkWorld conns socks sess (mkDb studs logs ivs lseq iseq) fl tm nw).
  set (w1 := set_db _ (set_faults _ w0)).
  destruct (sendToStudent_sockets s (MsgInterventionAssigned id tasks) w0 w1)
    as [Hsent Hsock]; [done | done |].
  split_and!.
  - done.
  - eexists. split; [by rewrite Hsent|]. done.
  - unfold sendToStudent. by repeat case_match.
  - assert (interventions (db (sendToStudent s (MsgInterventionAssigned id tasks) w1).2)
            = prisma.update_where (prisma.where_id id) (assign tasks nw) <$> ivs) as ->
      by (unfold sendToStudent; by repeat case_match).
    by apply update_where_match.
  - done.
Qed.

(** X16. [POST /test/manual-approve] for an intervention that exists assigns
    it with the tasks of the request -- or, when these are missing or empty,
    with a text that names the key -- and sends the frame to the owner of the
    intervention, as the row in the table has it; [studentNotified] tells
    whether the owner was connected. *)
Theorem manual_approval_notifies_the_owner (id : Z) (tasks : option string) (r0 : Intervention) (others : list Intervention) (w : World) :
  id ≠ 0 → no_fault 2 w →
  filter (prisma.where_id id) (interventions (db w)) = r0 :: others →
  let text := manualTasks tasks id in
  let answer := postManualApprove (mkManualApprovalBody (Some id) tasks) w in
  (tasks = None ∨ tasks = Some "" →
   text = "Manual test task for intervention " +:+ pretty id) ∧
  (∀ given, tasks = Some given → given ≠ "" → text = given) ∧
  answer.1 = mkResponse 200
               (BodyManualApproval (assign text (now w) r0)
                                   (isConnected (student_id r0) w)) ∧
  interventions (db answer.2) =
    prisma.update_where (prisma.where_id id) (assign text (now w))
      <$> interventions (db w) ∧
  sockets answer.2 =
    sockets (sendToStudent (student_id r0) (MsgInterventionAssigned id text) w).2.
Proof.
  intros Hid Hnf Hf. cbv zeta.
  destruct w as [conns socks sess [studs logs ivs lseq iseq] fl tm nw].
  unfold no_fault in Hnf. cbn in Hnf, Hf.
  assert (fl = [] ∨ (∃ fl', fl = false :: fl' ∧ (fl' = [] ∨ ∃ fl'', fl' = false :: fl'')))
    as Hfl.
  { destruct fl as [|[] [|[] fl]]; eauto 6; destruct Hnf; cbn; compute_done. }
  assert (prisma.key_fits id ivs) as Hfits.
  { right. apply Exists_exists. exists r0.
    assert (r0 ∈ filter (prisma.where_id id) ivs) as H0
      by (rewrite Hf; apply list_elem_of_here).
    apply list_elem_of_filter in H0 as [H0 H1]. done. }
  split_and!.
  - unfold manualTasks. intros [-> | ->]; [done | by rewrite decide_True].
  - unfold manualTasks. intros given -> Hg. by rewrite decide_False.
  - exec_route. rewrite decide_False by done. exec_db.
    rewrite (decide_True (P := prisma.key_fits id ivs)) by done. cbn.
    set (w0 := mkWorld conns socks sess (mkDb studs logs ivs lseq iseq) fl tm nw).
    destruct Hfl as [-> | (fl' & -> & [-> | (fl'' & ->)])]; cbn; rewrite Hf; cbn;
      rewrite Hf; cbn;
      match goal with
      | |- context [sendToStudent ?s ?m ?w1] =>
          destruct (sendToStudent_sockets s m w0 w1) as [-> _]; [done | done |]
      end; done.
  - exec_route. rewrite decide_False by done. exec_db.
    rewrite (decide_True (P := prisma.key_fits id ivs)) by done. cbn.
    destruct Hfl as [-> | (fl' & -> & [-> | (fl'' & ->)])]; cbn; rewrite Hf; cbn;
      rewrite Hf; cbn; unfold sendToStudent; by repeat case_match.
  - exec_route. rewrite decide_False by done. exec_db.
    rewrite (decide_True (P := prisma.key_fits id ivs)) by done. cbn.
    set (w0 := mkWorld conns socks sess (mkDb studs logs ivs lseq iseq) fl tm nw).
    destruct Hfl as [-> | (fl' & -> & [-> | (fl'' & ->)])]; cbn; rewrite Hf; cbn;
      rewrite Hf; cbn;
      match goal with
      | |- context [sendToStudent ?s ?m ?w1] =>
          destruct (sendToStudent_sockets s m w0 w1) as [_ ->]; [done | done |]
      end; done.
Qed.

(** X17. [POST /test/manual-approve] without a key, or with the key 0,
    answers 400 and changes nothing.  With a key that no intervention has it
    answers 404 when the key fits the INTEGER column and 500 when it does
    not, and in both cases no row, socket or timer is changed. *)
Theorem manual_approval_of_an_unknown_key_changes_nothing (b : ManualApprovalBody) (w : World) :
  let answer := postManualApprove b w in
  (m_interventionId b = None ∨ m_interventionId b = Some 0 →
   answer = (mkResponse 400 (BodyError "interventionId required"), w)) ∧
  (∀ id, m_interventionId b = Some id → id ≠ 0 → no_fault 1 w →
     (¬ ∃ r, r ∈ interventions (db w) ∧ intervention_id r = id) →
     (in_int4 id → answer.1 = mkResponse 404 (BodyError "Intervention not found")) ∧
     (¬ in_int4 id →
      answer.1 = mkResponse 500 (BodyError "Failed to process manual approval")) ∧
     db answer.2 = db w ∧ sockets answer.2 = sockets w ∧ timers answer.2 = timers w).
Proof.
  cbv zeta. split.
  - intros [H|H]; exec_route; rewrite H; [done|]. by rewrite decide_True.
  - intros id Hb Hid Hnf Hnone.
    destruct w as [conns socks sess [studs logs ivs lseq iseq] fl tm nw].
    unfold no_fault in Hnf. cbn in Hnf, Hnone.
    assert (match fl with true :: _ => @Thrown unit | _ => Normal tt end = Normal tt) as Hfl.
    { destruct fl as [|[] fl]; try done. destruct Hnf. cbn. apply list_elem_of_here. }
    exec_route. rewrite Hb, decide_False by done. exec_db.
    destruct (decide (in_int4 id)) as [Hfit|Hfit].
    + rewrite (decide_True (P := prisma.key_fits id ivs)) by (by left). cbn.
      rewrite (filter_where_id_nil _ _ Hnone), Hfl. by split_and!.
    + rewrite (decide_False (P := prisma.key_fits id ivs)); [by split_and!|].
      intros [Hfit' | (r & Hin & Hr)%Exists_exists]; [done|]. apply Hnone. by exists r.
Qed.

(** X18. A review that fires for an intervention that is not in the table, or
    whose database call fails, is dropped: the timer is gone, no frame is
    sent to anyone and no row is changed. *)
Theorem review_that_cannot_be_recorded_is_dropped (t : Timer) (rest : list Timer) (w : World) :
  timers w = t :: rest →
  ¬ no_fault 1 w ∨
  (¬ ∃ r, r ∈ interventions (db w) ∧ intervention_id r = t_interventionId t) →
  let w' := onTimeout w in
  timers w' = rest ∧ sockets w' = sockets w ∧ db w' = db w ∧
  connections w' = connections w.
Proof.
  intros Ht Hfail. cbv zeta. rewrite (onTimeout_fires _ _ _ Ht).
  destruct w as [conns socks sess [studs logs ivs lseq iseq] fl tm nw].
  unfold no_fault in Hfail. cbn in Hfail, Ht.
  unfold approvalCallback. exec_db.
  destruct fl as [|[] fl]; try done;
    destruct Hfail as [Hfail|Hfail]; try (destruct Hfail; cbn; compute_done);
    by rewrite (filter_where_id_nil _ _ Hfail).
Qed.

(** ** The properties above, on the scenarios *)

(** S1 connects to the freshly started server. *)
Lemma only_verified_identities_are_bound_witness :
  bound_are_verified example_jwt
    (reactAll example_jwt
       [FromSocket Connection; FromSocket (Message 0 (connect "token-S1"))] enrolled).
Proof.
  apply only_verified_identities_are_bound.
  intros s ws H. change (connections enrolled) with (∅ : gmap string nat) in H.
  by rewrite lookup_empty in H.
Defined.

(** S1 connects and checks in with (5, 40). *)
Lemma pending_timers_are_backed_by_an_intervention_witness :
  timers_backed
    (reactAll example_jwt
       [FromSocket Connection; FromSocket (Message 0 (connect "token-S1"));
        FromSocket (Message 0 (daily_checkin 5 40))] enrolled).
Proof.
  apply pending_timers_are_backed_by_an_intervention.
  intros t H. by apply elem_of_nil in H.
Defined.

(** The review of that check-in fires. *)
Lemma a_review_that_fires_finds_its_intervention_witness :
  let w := reactAll example_jwt
             [FromSocket Connection; FromSocket (Message 0 (connect "token-S1"));
              FromSocket (Message 0 (daily_checkin 5 40))] enrolled in
  timers w = [mkTimer 5000 "S1" 1 5 40] ∧ no_fault 1 w ∧
  ∃ r, r ∈ interventions (db (onTimeout w)) ∧
       intervention_id r = 1 ∧ student_id r = "S1" ∧ task_assigned r = true ∧
       assigned_tasks r = Some (remedialTasks 5 40).
Proof.
  cbv zeta. split; [by vm_compute|]. split; [compute_done|].
  apply (a_review_that_fires_finds_its_intervention example_jwt _ enrolled
           (mkTimer 5000 "S1" 1 5 40) []); [reflexivity | by vm_compute | compute_done].
Defined.

(** Socket 0 closes after its session has moved from S1 to S2. *)
Lemma stale_entries_are_never_written_to_witness :
  let w := onMessage example_jwt 0 (connect "token-S2") S1_connected in
  getConnection "S1" (onClose 0 w) = Some 0%nat ∧
  isConnected "S1" (onClose 0 w) = false.
Proof.
  cbv zeta. split; [by vm_compute|].
  apply (stale_entries_are_never_written_to "S1" (MsgError "") 0
           (onMessage example_jwt 0 (connect "token-S2") S1_connected)).
  by vm_compute.
Defined.

(** S1 is bound to socket 0 and unbound again. *)
Lemma bind_then_unbind_restores_the_registry_witness :
  getConnection "S1" two_sockets = None ∧
  connections (removeConnection "S1" (addConnection "S1" 0 two_sockets)) =
    connections two_sockets.
Proof.
  split; [by vm_compute|].
  by apply (bind_then_unbind_restores_the_registry "S1" 0 two_sockets).
Defined.

(** A frame that is not JSON arrives on the session of S1. *)
Lemma malformed_frames_keep_the_session_witness :
  sessionIds (onMessage example_jwt 0 None S1_connected) = sessionIds S1_connected ∧
  connections (onMessage example_jwt 0 None S1_connected) = connections S1_connected.
Proof.
  destruct (malformed_frames_keep_the_session example_jwt 0 None S1_connected)
    as (_ & Hs & Hc & _); [by left | done].
Defined.

(** A token with an empty [studentId] is presented on a fresh socket. *)
Lemma token_without_identity_is_refused_witness :
  anonymous_jwt "token-empty" = Decoded (Some "") ∧
  let w' := onMessage anonymous_jwt 0 (connect "token-empty") two_sockets in
  connections w' = connections two_sockets ∧ ws_readyState 0 w' = CLOSING.
Proof.
  split; [reflexivity|].
  destruct (token_without_identity_is_refused anonymous_jwt 0 "token-empty" two_sockets)
    as (_ & Hc & _ & Ho & _); [by right|].
  split; [exact Hc | apply Ho; by vm_compute].
Defined.

(** The session of S1 presents an expired token. *)
Lemma refused_reconnect_deauthenticates_but_stays_bound_witness :
  let w' := onMessage example_jwt 0 (connect "token-expired") S1_connected in
  onMessage example_jwt 0 (daily_checkin 5 40) w' =
    ws_send 0 (MsgError "Not authenticated") w' ∧
  getConnection "S1" (onClose 0 w') = Some 0%nat.
Proof.
  destruct (refused_reconnect_deauthenticates_but_stays_bound example_jwt 0
              (mkPayload (Some "token-expired") None None None) "S1" S1_connected)
    as (_ & Hcheckin & _ & _ & _ & Hstale);
    [by vm_compute | by vm_compute | by vm_compute | by vm_compute |].
  split; [apply Hcheckin | exact Hstale].
Defined.

(** S1 checks in without the focus minutes. *)
Lemma incomplete_checkin_only_errors_witness :
  let w' := onMessage example_jwt 0
              (Some (mkEnvelope (Some "daily_checkin")
                       (Some (mkPayload None (Some 5) None None)))) S1_connected in
  db w' = db S1_connected ∧ timers w' = timers S1_connected.
Proof.
  destruct (incomplete_checkin_only_errors example_jwt 0 "S1"
              (Some (mkPayload None (Some 5) None None)) S1_connected)
    as (_ & Hdb & Htimers & _); [by vm_compute | done | | done].
  intros p' [= <-]. by right.
Defined.

(** The usual header, and the same token after another first word. *)
Lemma the_token_is_the_second_word_of_the_header_witness :
  authenticateToken example_jwt (Some "Bearer token-S1") = Next (Some "S1") ∧
  authenticateToken example_jwt (Some "Basic token-S1 trailing") = Next (Some "S1").
Proof.
  split.
  - by destruct (the_token_is_the_second_word_of_the_header example_jwt
                   "Bearer" "token-S1" "") as (_ & _ & H & _); [compute_done | compute_done |].
  - by destruct (the_token_is_the_second_word_of_the_header example_jwt
                   "Basic" "token-S1" "trailing") as (_ & _ & _ & H & _);
      [compute_done | compute_done |].
Defined.

(** With the token of S1, the pending interventions of S2 are read. *)
Lemma any_valid_token_reads_any_students_pending_list_witness :
  (getPendingInterventions example_jwt (Some "Bearer token-S1") "S2"
     (onTimeout S2_gone)).1 =
  mkResponse 200
    (BodyPending "S2"
       [mkIntervention 1 "S2" true (Some combined_remediation) false 0 5000]).
Proof.
  destruct (any_valid_token_reads_any_students_pending_list example_jwt
              "token-S1" "S2" (onTimeout S2_gone)) as [Hok _];
    [compute_done | done |].
  change "Bearer token-S1" with ("Bearer " +:+ "token-S1").
  destruct (Hok (Some "S1")) as [-> _]; [reflexivity | compute_done | by vm_compute].
Defined.

(** An approval without tasks, and one for a key that no row has. *)
Lemma approval_that_cannot_be_recorded_notifies_nobody_witness :
  postInterventionApprove (mkApprovalBody (Some "S1") (Some 1) None None) S1_pending =
    (mkResponse 400 (BodyError "Missing required fields"), S1_pending) ∧
  sockets (postInterventionApprove
             (mkApprovalBody (Some "S1") (Some 7) (Some "Read chapter 3") None)
             S1_pending).2 = sockets S1_pending.
Proof.
  split.
  - apply (approval_that_cannot_be_recorded_notifies_nobody
             (mkApprovalBody (Some "S1") (Some 1) None None) S1_pending). auto 10.
  - destruct (approval_that_cannot_be_recorded_notifies_nobody
                (mkApprovalBody (Some "S1") (Some 7) (Some "Read chapter 3") None)
                S1_pending) as [_ H].
    destruct (H "S1" 7 "Read chapter 3") as (_ & Hs & _); try done.
    right. intros (r & Hin & Hr).
    assert (interventions (db S1_pending) = [mkIntervention 1 "S1" false None false 0 0])
      as E by (by vm_compute).
    rewrite E in Hin. apply list_elem_of_singleton in Hin as ->. discriminate Hr.
Defined.

(** The intervention of S1 is approved in a request that names S2, with
    [approved] false. *)
Lemma approval_notifies_the_student_named_in_the_request_witness :
  let answer := postInterventionApprove
                  (mkApprovalBody (Some "S2") (Some 1) (Some "Read chapter 3") (Some false))
                  S1_pending in
  body answer.1 =
    BodyApproved true (mkIntervention 1 "S1" true (Some "Read chapter 3") false 0 0) ∧
  sockets answer.2 = sockets S1_pending.
Proof.
  destruct (approval_notifies_the_student_named_in_the_request
              "S2" "Read chapter 3" 1 (Some false)
              (mkIntervention 1 "S1" false None false 0 0) S1_pending)
    as (_ & (updated & Hbody & _) & _ & _ & Hsock);
    [done | done | done | compute_done | compute_done | done |].
  cbv zeta. split; [|rewrite Hsock; by vm_compute].
  rewrite Hbody. revert Hbody. by vm_compute.
Defined.

(** The pending intervention of S1 is approved by hand, without tasks. *)
Lemma manual_approval_notifies_the_owner_witness :
  let answer := postManualApprove (mkManualApprovalBody (Some 1) None) S1_pending in
  ws_sent 0 answer.2 =
    ws_sent 0 S1_pending ++
    [MsgInterventionAssigned 1 "Manual test task for intervention 1"].
Proof.
  destruct (manual_approval_notifies_the_owner 1 None
              (mkIntervention 1 "S1" false None false 0 0) [] S1_pending)
    as (_ & _ & _ & _ & Hsock); [done | compute_done | by vm_compute |].
  cbv zeta. unfold ws_sent. rewrite Hsock. by vm_compute.
Defined.

(** A manual approval without key, and one for a key that no row has. *)
Lemma manual_approval_of_an_unknown_key_changes_nothing_witness :
  postManualApprove (mkManualApprovalBody None None) S1_pending =
    (mkResponse 400 (BodyError "interventionId required"), S1_pending) ∧
  (postManualApprove (mkManualApprovalBody (Some 7) None) S1_pending).1 =
    mkResponse 404 (BodyError "Intervention not found") ∧
  (postManualApprove (mkManualApprovalBody (Some 2147483648) None) S1_pending).1 =
    mkResponse 500 (BodyError "Failed to process manual approval").
Proof.
  assert (∀ id, id ≠ 1 →
            ¬ ∃ r, r ∈ interventions (db S1_pending) ∧ intervention_id r = id) as Hnone.
  { intros id Hid (r & Hin & Hr).
    assert (interventions (db S1_pending) = [mkIntervention 1 "S1" false None false 0 0])
      as E by (by vm_compute).
    rewrite E in Hin. apply list_elem_of_singleton in Hin as ->. by destruct Hid. }
  split_and!.
  - apply (manual_approval_of_an_unknown_key_changes_nothing
             (mkManualApprovalBody None None) S1_pending). by left.
  - destruct (manual_approval_of_an_unknown_key_changes_nothing
                (mkManualApprovalBody (Some 7) None) S1_pending) as [_ H].
    destruct (H 7) as (Hres & _); [done | done | compute_done | by apply Hnone |].
    apply Hres. compute_done.
  - destruct (manual_approval_of_an_unknown_key_changes_nothing
                (mkManualApprovalBody (Some 2147483648) None) S1_pending) as [_ H].
    destruct (H 2147483648) as (_ & Hres & _);
      [done | done | compute_done | by apply Hnone |].
    apply Hres. compute_done.
Defined.

(** The review of S1 fires while the database is down. *)
Lemma review_that_cannot_be_recorded_is_dropped_witness :
  let w := set_faults (λ _, [true]) S1_pending in
  timers (onTimeout w) = [] ∧ sockets (onTimeout w) = sockets w ∧
  db (onTimeout w) = db w.
Proof.
  destruct (review_that_cannot_be_recorded_is_dropped (mkTimer 5000 "S1" 1 5 40) []
              (set_faults (λ _, [true]) S1_pending))
    as (Ht & Hs & Hd & _); [by vm_compute | left; compute_done | done].
Defined.

(** ** Who is written to *)

(** X19. A completion report that cannot be carried out -- no payload, no
    key or the key 0, a failing database call -- is answered with one error
    frame on the socket it came from, and no row is changed. *)
Theorem completion_report_that_fails_changes_no_row (s : string) (p : option Payload) (ws : nat) (w : World) :
  p = None ∨
  (∃ p', p = Some p' ∧ (p_interventionId p' = None ∨ p_interventionId p' = Some 0)) ∨
  ¬ no_fault 1 w →
  let w' := handleRemedialCompletion s p ws w in
  (∃ error, sockets w' = sockets (ws_send ws (MsgError error) w)) ∧
  db w' = db w ∧ timers w' = timers w ∧ connections w' = connections w.
Proof.
  intros Hp. cbv zeta.
  destruct Hp as [-> | [(p' & -> & Hp') | Hnf]].
  - split; [eexists|]; unfold handleRemedialCompletion; by exec.
  - rewrite completion_without_key_refused by done. eauto.
  - destruct w as [conns socks sess [studs logs ivs lseq iseq] fl tm nw].
    unfold no_fault in Hnf. cbn in Hnf.
    destruct fl as [|[] fl]; try (destruct Hnf; cbn; compute_done).
    destruct p as [p'|]; [|split; [eexists|]; unfold handleRemedialCompletion; by exec].
    destruct (p_interventionId p') as [id|] eqn:Hid;
      [|rewrite completion_without_key_refused by auto; eauto].
    destruct (decide (id = 0)) as [->|Hne];
      [rewrite completion_without_key_refused by auto; eauto|].
    unfold handleRemedialCompletion. exec_db. rewrite Hid, decide_False by done.
    exec_db. destruct (decide (prisma.key_fits id ivs)); cbn; eauto.
Qed.

Ltac leaf_other_socket :=
  unfold unchanged, db_call, ws_send, ws_close, assign_studentId, addConnection,
    prisma.rollback; cbn;
  repeat case_match; cbn; rewrite ?lookup_alter_ne by done; done.

Lemma handleDailyCheckin_other_socket s p ws ws' w :
  ws' ≠ ws → unchanged (λ w, sockets w !! ws') w (handleDailyCheckin s p ws w).
Proof.
  intros Hne. unfold handleDailyCheckin. apply (keeps_try_catch (unchanged _)).
  - unfold prisma.dailyLog_create, prisma.intervention_create, simulateN8nApproval.
    keeps_with leaf_other_socket.
  - keeps_with leaf_other_socket.
Qed.

Lemma handleRemedialCompletion_other_socket s p ws ws' w :
  ws' ≠ ws → unchanged (λ w, sockets w !! ws') w (handleRemedialCompletion s p ws w).
Proof.
  intros Hne. unfold handleRemedialCompletion. apply (keeps_try_catch (unchanged _)).
  - unfold prisma.intervention_updateMany. keeps_with leaf_other_socket.
  - keeps_with leaf_other_socket.
Qed.

(** X20. Whatever a message is and whatever comes of it, the handler of a
    connection writes to the socket of that connection only, and closes no
    other: every other socket is left exactly as it was. *)
Theorem a_message_is_answered_on_its_own_socket_only (jwt_verify : string → JwtOutcome) (ws ws' : nat) (message : option Envelope) (w : World) :
  ws' ≠ ws → sockets (onMessage jwt_verify ws message w) !! ws' = sockets w !! ws'.
Proof.
  intros Hne. destruct message as [[t p]|]; [|by apply lookup_alter_ne].
  destruct (decide (t = Some "connect")) as [->|Ht].
  - rewrite onMessage_connect. destruct p as [p|]; [|by apply lookup_alter_ne].
    cbv zeta. repeat case_match; cbn; by rewrite ?lookup_alter_ne by done.
  - destruct (onMessage_cases jwt_verify ws t p w Ht) as [[msg ->] | [[s ->] | [s ->]]].
    + by apply lookup_alter_ne.
    + by apply handleDailyCheckin_other_socket.
    + by apply handleRemedialCompletion_other_socket.
Qed.

#[global] Instance spares_preorder s ws : PreOrder (spares s ws).
Proof.
  split.
  - by intros w.
  - intros w1 w2 w3 [Hc1 Hs1] [Hc2 Hs2]. split; [congruence|].
    intros Hne. rewrite Hs2, Hs1; [done | done |]. by rewrite Hc1.
Qed.

Ltac leaf_spares :=
  unfold spares, db_call, sendToStudent, ws_send, prisma.rollback; cbn;
  repeat case_match; cbn; (split; [done|]); intros ?;
  rewrite ?lookup_alter_ne by congruence; done.

Lemma approvalCallback_spares s id q m ws w :
  spares s ws w (approvalCallback s id q m w).
Proof.
  unfold approvalCallback. apply (keeps_try_catch (spares s ws)).
  - unfold prisma.intervention_update. keeps_with leaf_spares.
  - keeps_with leaf_spares.
Qed.

(** X21. A review that fires, and an approval through either route, write to
    one socket at most: the one the registry binds to the student they
    notify.  Every other socket is left exactly as it was. *)
Theorem an_assignment_is_sent_to_the_bound_socket_only (ws : nat) (w : World) :
  (∀ t rest, timers w = t :: rest → getConnection (t_studentId t) w ≠ Some ws →
             sockets (onTimeout w) !! ws = sockets w !! ws) ∧
  (∀ b s, a_studentId b = Some s → getConnection s w ≠ Some ws →
          sockets (postInterventionApprove b w).2 !! ws = sockets w !! ws) ∧
  (∀ b, (∀ id r0 others,
           m_interventionId b = Some id →
           filter (prisma.where_id id) (interventions (db w)) = r0 :: others →
           getConnection (student_id r0) w ≠ Some ws) →
        sockets (postManualApprove b w).2 !! ws = sockets w !! ws).
Proof.
  unfold getConnection. split_and!.
  - intros t rest Ht Hne. rewrite (onTimeout_fires _ _ _ Ht).
    set (w0 := set_now (Z.max (due t)) (set_timers (λ _, rest) w)).
    destruct (approvalCallback_spares (t_studentId t) (t_interventionId t)
                (t_quizScore t) (t_focusMinutes t) ws w0) as [_ H].
    by apply H.
  - intros b s Hs Hne.
    assert (spares s ws w (postInterventionApprove b w).2) as [_ H]; [|by apply H].
    unfold postInterventionApprove. apply (keeps_respond_or (spares s ws)).
    rewrite Hs. unfold prisma.intervention_update. keeps_with leaf_spares.
  - intros b Hb. unfold postManualApprove, respond_or.
    destruct (m_interventionId b) as [id|]; [|done].
    destruct (decide (id = 0)); [done|].
    destruct w as [conns socks sess [studs logs ivs lseq iseq] fl tm nw].
    specialize (Hb id). cbn in Hb.
    unfold intervention_findUnique. exec_db.
    destruct (decide (prisma.key_fits id ivs)); [cbn|done].
    destruct (filter (prisma.where_id id) ivs) as [|r0 others] eqn:Hf;
      [by destruct fl as [|[] fl]|].
    specialize (Hb r0 others eq_refl eq_refl).
    destruct fl as [|[] [|[] fl]]; cbn; try done; rewrite ?Hf; cbn;
      unfold sendToStudent, ws_readyState; cbn;
      repeat case_match; cbn; rewrite ?lookup_alter_ne by congruence; done.
Qed.

(** S1 reports a completion without payload. *)
Lemma completion_report_that_fails_changes_no_row_witness :
  db (handleRemedialCompletion "S1" None 0 S1_assigned) = db S1_assigned.
Proof.
  destruct (completion_report_that_fails_changes_no_row "S1" None 0 S1_assigned)
    as (_ & Hdb & _); [by left | done].
Defined.

(** S1 is bound on two sockets and checks in on the first. *)
Lemma a_message_is_answered_on_its_own_socket_only_witness :
  sockets (onMessage example_jwt 0 (daily_checkin 5 40) S1_bound_twice) !! 1%nat =
  sockets S1_bound_twice !! 1%nat.
Proof.
  by apply (a_message_is_answered_on_its_own_socket_only example_jwt 0 1).
Defined.

(** The review of that check-in fires: S1 is bound to socket 1, and socket 0
    is not written to. *)
Lemma an_assignment_is_sent_to_the_bound_socket_only_witness :
  let w := onMessage example_jwt 0 (daily_checkin 5 40) S1_bound_twice in
  timers w = [mkTimer 5000 "S1" 1 5 40] ∧ getConnection "S1" w = Some 1%nat ∧
  sockets (onTimeout w) !! 0%nat = sockets w !! 0%nat.
Proof.
  cbv zeta. split; [by vm_compute|]. split; [by vm_compute|].
  destruct (an_assignment_is_sent_to_the_bound_socket_only 0
              (onMessage example_jwt 0 (daily_checkin 5 40) S1_bound_twice)) as [H _].
  apply (H (mkTimer 5000 "S1" 1 5 40) []); [by vm_compute|].
  by vm_compute.
Defined.
